(** * SSFD: seven-segment four-digit display driver (SSFD.cpp / SSFD.h)

    Shallow embedding of the driver class [SevenSegment]: the PROGMEM
    pattern table, the character lookup, the renderers, the multiplex
    tick, the lifecycle routines and the wiring test.  Bytes are [Z]
    values, the hardware side effects (pin writes, delays, interrupt
    masking, Timer1 programming) are an explicit trace of [event]s. *)

From Stdlib Require Import ZArith QArith Qround Qabs List Bool Ascii String Lia Lqa.
Import ListNotations.
Open Scope Z_scope.

(** ** Segment Pattern Table ([SEGMENT_PATTERNS], PROGMEM) *)

Definition SEGMENT_PATTERNS : list Z :=
  [ (* digits 0-9 *)
    252; 96; 218; 242; 102; 182; 190; 224; 254; 246;
    (* 10: BLANK, 11: dp only *)
    0; 1;
    (* 12..37: A..Z *)
    238; 62; 156; 122; 158; 142; 188; 110; 96; 120;
    14; 28; 168; 42; 252; 206; 246; 10; 182; 30;
    124; 112; 84; 78; 118; 218;
    (* 38: SPACE, 39: dash, 40: equals *)
    0; 2; 192 ].

(** [pgm_read_byte(&SEGMENT_PATTERNS[i])] *)
Definition pattern_at (i : Z) : Z := nth (Z.to_nat i) SEGMENT_PATTERNS 0.

Definition NUM_DIGITS : Z := 4.
Definition NUM_SEGMENTS : Z := 8.
Definition MAX_PIN : Z := 53.
Definition MAX_VALUE : Z := 9999.

(** [char] is signed on AVR: the byte value of an [ascii] seen as [char]. *)
Definition char_val (c : ascii) : Z :=
  let n := Z.of_nat (nat_of_ascii c) in
  if 128 <=? n then n - 256 else n.

(** [SevenSegment::getPattern] *)
Definition getPattern (ch : ascii) : Z :=
  let c := char_val ch in
  let index :=
    if (48 <=? c) && (c <=? 57) then c - 48
    else if (65 <=? c) && (c <=? 90) then 12 + (c - 65)
    else if (97 <=? c) && (c <=? 122) then 12 + (c - 97)
    else if c =? 32 then 38
    else if c =? 45 then 39
    else if c =? 61 then 40
    else if c =? 46 then 11
    else 10 in
  let index := if Z.of_nat (List.length SEGMENT_PATTERNS) <=? index then 10 else index in
  pattern_at index.

(** ** Driver state ([class SevenSegment]) *)

Inductive Error := OK | NULL_POINTER | INVALID_PIN | TIMER_INIT_FAILED
                 | NOT_INITIALIZED | INVALID_ARGUMENT.

Record SevenSegment := mkSevenSegment {
  _isrActive : bool;
  _segmentPins : option (list Z);   (** [None]: null pointer *)
  _digitPins : option (list Z);
  _displayPatterns : list Z;        (** the four slots, 0 = leftmost *)
  _leadingZeros : bool;
  _currentDigit : Z;                (** uint8_t *)
  _refreshIntervalMs : Z;
  _lastRefreshTime : Z;
  _blinkEnabled : bool;
  _blinkStateOn : bool;
  _blinkInterval : Z;
  _blinkLastToggle : Z;
  _lastError : Error }.

(** The constructor [SevenSegment(segmentPins, digitPins)]. *)
Definition construct (segmentPins digitPins : option (list Z)) : SevenSegment :=
  mkSevenSegment false segmentPins digitPins [0; 0; 0; 0] true 0 3 0
                 false true 500 0 OK.

Definition set_displayPatterns (s : SevenSegment) (d : list Z) : SevenSegment :=
  mkSevenSegment (_isrActive s) (_segmentPins s) (_digitPins s) d
    (_leadingZeros s) (_currentDigit s) (_refreshIntervalMs s) (_lastRefreshTime s)
    (_blinkEnabled s) (_blinkStateOn s) (_blinkInterval s) (_blinkLastToggle s)
    (_lastError s).

Definition set_currentDigit (s : SevenSegment) (c : Z) : SevenSegment :=
  mkSevenSegment (_isrActive s) (_segmentPins s) (_digitPins s) (_displayPatterns s)
    (_leadingZeros s) c (_refreshIntervalMs s) (_lastRefreshTime s)
    (_blinkEnabled s) (_blinkStateOn s) (_blinkInterval s) (_blinkLastToggle s)
    (_lastError s).

Definition set_lastError (e : Error) (s : SevenSegment) : SevenSegment :=
  mkSevenSegment (_isrActive s) (_segmentPins s) (_digitPins s) (_displayPatterns s)
    (_leadingZeros s) (_currentDigit s) (_refreshIntervalMs s) (_lastRefreshTime s)
    (_blinkEnabled s) (_blinkStateOn s) (_blinkInterval s) (_blinkLastToggle s) e.

Definition set_isrActive (s : SevenSegment) (b : bool) : SevenSegment :=
  mkSevenSegment b (_segmentPins s) (_digitPins s) (_displayPatterns s)
    (_leadingZeros s) (_currentDigit s) (_refreshIntervalMs s) (_lastRefreshTime s)
    (_blinkEnabled s) (_blinkStateOn s) (_blinkInterval s) (_blinkLastToggle s)
    (_lastError s).

(** [setLeadingZeros(enabled)] *)
Definition setLeadingZeros (enabled : bool) (s : SevenSegment) : SevenSegment :=
  mkSevenSegment (_isrActive s) (_segmentPins s) (_digitPins s) (_displayPatterns s)
    enabled (_currentDigit s) (_refreshIntervalMs s) (_lastRefreshTime s)
    (_blinkEnabled s) (_blinkStateOn s) (_blinkInterval s) (_blinkLastToggle s)
    (_lastError s).

(** [_displayPatterns[i] = p] *)
Fixpoint upd_slot (i : nat) (p : Z) (d : list Z) : list Z :=
  match d, i with
  | [], _ => []
  | _ :: d', O => p :: d'
  | x :: d', S i' => x :: upd_slot i' p d'
  end.

(** ** setNumber *)

(** The digit extraction loop: [for (i = 3; i >= 0; i--) { digits[i] = temp % 10; temp /= 10; }] *)
Fixpoint extract_digits (k : nat) (temp : Z) (acc : list Z) : list Z :=
  match k with
  | O => acc
  | S k' => extract_digits k' (temp / 10) (temp mod 10 :: acc)
  end.

(** The pattern loop, run inside [cli()]/[sei()]; [i] is the slot index. *)
Fixpoint build_patterns (leadingZeros : bool) (dpPosition : Z) (i : Z)
         (isLeading : bool) (digits : list Z) : list Z :=
  match digits with
  | [] => []
  | digit :: rest =>
      let pattern := pattern_at digit in
      let '(pattern, isLeading) :=
        if negb leadingZeros && (digit =? 0) && isLeading && (i <? NUM_DIGITS - 1)
        then (pattern_at 10, isLeading)
        else if negb (digit =? 0) || negb isLeading || (i =? NUM_DIGITS - 1)
        then (pattern, false)
        else (pattern, isLeading) in
      let pattern :=
        if (i =? dpPosition) && (0 <=? dpPosition)
        then Z.lor pattern (pattern_at 11) else pattern in
      pattern :: build_patterns leadingZeros dpPosition (i + 1) isLeading rest
  end.

(** [SevenSegment::setNumber(uint16_t value, int8_t dpPosition)] *)
Definition setNumber (value dpPosition : Z) (s : SevenSegment) : SevenSegment :=
  let value := if MAX_VALUE <? value then MAX_VALUE else value in
  let dpPosition := if (dpPosition <? -1) || (3 <? dpPosition) then -1 else dpPosition in
  let digits := extract_digits (Z.to_nat NUM_DIGITS) value [] in
  set_displayPatterns s (build_patterns (_leadingZeros s) dpPosition 0 true digits).

(** ** Atomic sections

    A renderer is a sequence of writes; each element of a [prog] is a
    region in which the Timer1 interrupt cannot run (a [cli()]..[sei()]
    block, or a write of fields the interrupt does not read).  Between two
    elements the interrupt may fire. *)

Definition step := SevenSegment -> SevenSegment.
Definition prog := list step.

Definition run (p : prog) (s : SevenSegment) : SevenSegment :=
  fold_left (fun s f => f s) p s.

(** [setHundredths(uint16_t hundredths, int8_t dpPosition)] *)
Definition setHundredths (hundredths dpPosition : Z) (s : SevenSegment) : SevenSegment :=
  let hundredths := if 9999 <? hundredths then 9999 else hundredths in
  let dpPosition := if (dpPosition <? -1) || (3 <? dpPosition) then 2 else dpPosition in
  setNumber hundredths dpPosition s.

(** [setSegments(const uint8_t patterns[4])]; [None] is the null pointer. *)
Definition setSegments (patterns : option (list Z)) (s : SevenSegment) : SevenSegment :=
  match patterns with
  | None => s
  | Some ps => set_displayPatterns s (map (fun i => nth i ps 0) (seq 0 4))
  end.

(** ** setText *)

(** A C string: the characters up to (excluding) the first NUL. *)
Fixpoint strlen (t : list ascii) : nat :=
  match t with
  | [] => O
  | c :: t' => if Ascii.eqb c zero then O else S (strlen t')
  end.

(** [strncpy(dst, src, n)]: copies at most [n] characters, NUL-padding
    once [src] ends. *)
Fixpoint strncpy (dst src : list ascii) (n : nat) : list ascii :=
  match n, dst with
  | O, _ => dst
  | S _, [] => []
  | S n', _ :: dst' =>
      match src with
      | c :: src' =>
          if Ascii.eqb c zero then zero :: strncpy dst' [] n'
          else c :: strncpy dst' src' n'
      | [] => zero :: strncpy dst' [] n'
      end
  end.

(** [SevenSegment::setText(const char* text)] as its atomic sections and
    its result; [None] is the null pointer.  [uint8_t len = strlen(text)]
    keeps the length modulo 256. *)
Definition setText_prog (text : option (list ascii)) : prog * Error :=
  match text with
  | None => ([], NULL_POINTER)
  | Some t =>
      let len := Z.of_nat (strlen t) mod 256 in
      if NUM_DIGITS <? len then ([], INVALID_ARGUMENT)
      else
        let padded := strncpy [" "; " "; " "; " "; zero]%char t (Z.to_nat len) in
        ([fun s => set_displayPatterns s
                     (map (fun i => getPattern (nth i padded zero)) (seq 0 4))], OK)
  end.

Definition setText (text : option (list ascii)) (s : SevenSegment) : SevenSegment * Error :=
  (run (fst (setText_prog text)) s, snd (setText_prog text)).

(** ** setFloat *)

(** A [float] argument: NaN, an infinity or a finite value, taken as its
    exact rational value. *)
Inductive float := FNaN | FInf (negative : bool) | FFin (q : Q).

(** [round]/[roundf]: to nearest, halves away from zero. *)
Definition roundQ (x : Q) : Z :=
  if Qle_bool 0 x then Qfloor (x + (1 # 2)) else - Qfloor (- x + (1 # 2)).

(** Conversion of an integral [float] to [uint16_t].  [setFloat] only
    converts values in 0..32768 on the inputs where it is defined (see
    below), where this is the identity; out of range the conversion is
    undefined, and the [mod] there is no claim about the program. *)
Definition to_uint16 (z : Z) : Z := z mod 65536.

(** [2 ^ e] as a rational, for any integer [e]. *)
Definition pow2Q (e : Z) : Q :=
  if 0 <=? e then inject_Z (2 ^ e) else 1 # Z.to_pos (2 ^ (- e)).

(** [floor (log2 x)] for [x > 0]. *)
Definition flog2 (x : Q) : Z :=
  let a := Z.abs (Qnum x) in
  let d := Zpos (Qden x) in
  let l := Z.log2 a - Z.log2 d in
  if (if 0 <=? l then d * 2 ^ l <=? a else d <=? a * 2 ^ (- l)) then l else l - 1.

(** [num / den] rounded to the nearest integer, ties to even. *)
Definition round_half_even (num : Z) (den : positive) : Z :=
  let q := num / Zpos den in
  let r := num mod Zpos den in
  match Z.compare (2 * r) (Zpos den) with
  | Lt => q
  | Gt => q + 1
  | Eq => if Z.even q then q else q + 1
  end.

(** A product of two [float]s (AVR: [double] is [float] too) rounded to
    the nearest binary32 value: 24-bit significand, ties to even, quantum
    [2 ^ -149] in the subnormal range.  Overflow is not modelled: the
    products [setFloat] forms on its defined inputs stay below [2 ^ 24]. *)
Definition round_f32 (x : Q) : Q :=
  if Qeq_bool x 0 then 0
  else
    let e := Z.max (flog2 x - 23) (-149) in
    let y := Qdiv x (pow2Q e) in
    Qmult (inject_Z (round_half_even (Qnum y) (Qden y))) (pow2Q e).

Definition str (s : string) : option (list ascii) := Some (list_ascii_of_string s).

(** [SevenSegment::setFloat(float value)] as its atomic sections and its
    result; the last section is the store to [_lastError].  The products
    [fabs(value) * 100.0f], [fabs(value) * 10.0f] and [value * multiplier]
    are rounded to [float] ([round_f32]) before [roundf]/[round];
    [pow(10, n)] for [n] in 0..3 is taken as the exact power (a [float]).
    [(int)value] is the truncation [Qfloor value] (the value is not
    negative there); AVR's [int] has 16 bits, so from 32768 up that
    conversion overflows (undefined behaviour), and the model is no claim
    about the program on those inputs. *)
Definition setFloat_prog (value : float) : prog * Error :=
  match value with
  | FNaN | FInf _ =>
      (fst (setText_prog (str "Err ")) ++ [set_lastError INVALID_ARGUMENT], INVALID_ARGUMENT)
  | FFin v =>
      if negb (Qle_bool 0 v) then
        if Qle_bool v (-100) then (fst (setText_prog (str "-999")) ++ [set_lastError OK], OK)
        else
          let '(numToDisplay, dpPosition) :=
            if negb (Qle_bool v (-10))
            then (to_uint16 (roundQ (round_f32 (Qabs v * 100))), 1)
            else (to_uint16 (roundQ (round_f32 (Qabs v * 10))), 2) in
          ([setNumber numToDisplay dpPosition;
            (fun s => set_displayPatterns s (upd_slot 0 (getPattern "-") (_displayPatterns s)));
            set_lastError OK], OK)
      else
        (* (int)value, value >= 0 *)
        let intPart := Qfloor v in
        let numIntDigits :=
          if 1000 <=? intPart then 4 else if 100 <=? intPart then 3
          else if 10 <=? intPart then 2 else 1 in
        let numDecimals := 4 - numIntDigits in
        let numDecimals := if numDecimals <? 0 then 0 else numDecimals in
        let dpPosition := numIntDigits - 1 in
        let dpPosition := if dpPosition =? 3 then -1 else dpPosition in
        let multiplier := 10 ^ numDecimals in
        let numToDisplay := to_uint16 (roundQ (round_f32 (v * inject_Z multiplier))) in
        let numToDisplay := if 9999 <? numToDisplay then 9999 else numToDisplay in
        ([setNumber numToDisplay dpPosition; set_lastError OK], OK)
  end.

Definition setFloat (value : float) (s : SevenSegment) : SevenSegment * Error :=
  (run (fst (setFloat_prog value)) s, snd (setFloat_prog value)).

(** ** Hardware effects *)

Inductive level := LOW | HIGH.

Inductive event :=
  | PinModeOutput (pin : Z)          (** [pinMode(pin, OUTPUT)] *)
  | DigitalWrite (pin : Z) (l : level)
  | Delay (ms : Z)
  | Cli | Sei
  | Timer1Setup                      (** TCCR1A/TCCR1B/TCNT1/OCR1A programming *)
  | TimskEnable                      (** [TIMSK1 |= (1 << OCIE1A)] *)
  | TimskDisable.                    (** [TIMSK1 &= ~(1 << OCIE1A)] *)

(** [pgm_read_byte(&pins[i])] *)
Definition pin_read (pins : option (list Z)) (i : Z) : Z :=
  match pins with
  | Some l => nth (Z.to_nat i) l 0
  | None => 0
  end.

Definition indices (n : Z) : list Z := map Z.of_nat (seq 0 (Z.to_nat n)).

(** [SevenSegment::isPinValid] *)
Definition isPinValid (pin : Z) : bool := pin <=? MAX_PIN.

(** [SevenSegment::begin()]: new state, hardware trace, result. *)
Definition begin (s : SevenSegment) : SevenSegment * list event * Error :=
  match _segmentPins s, _digitPins s with
  | Some _, Some _ =>
      let seg := _segmentPins s in
      let dig := _digitPins s in
      if existsb (fun i => negb (isPinValid (pin_read seg i))) (indices NUM_SEGMENTS)
      then (set_lastError INVALID_PIN s, [], INVALID_PIN)
      else if existsb (fun i => negb (isPinValid (pin_read dig i))) (indices NUM_DIGITS)
      then (set_lastError INVALID_PIN s, [], INVALID_PIN)
      else
        let init pins i := [PinModeOutput (pin_read pins i); DigitalWrite (pin_read pins i) LOW] in
        let trace :=
          flat_map (init seg) (indices NUM_SEGMENTS)
          ++ flat_map (init dig) (indices NUM_DIGITS)
          ++ [Cli; Timer1Setup; TimskEnable; Sei] in
        (set_lastError OK (set_isrActive s true), trace, OK)
  | _, _ => (set_lastError NULL_POINTER s, [], NULL_POINTER)
  end.

(** [SevenSegment::multiplex()], one Timer1 tick. *)
Definition multiplex (s : SevenSegment) : SevenSegment * list event :=
  let prevDigit := _currentDigit s in
  let off := DigitalWrite (pin_read (_digitPins s) prevDigit) LOW in
  let s := set_currentDigit s ((_currentDigit s + 1) mod NUM_DIGITS) in
  if _blinkEnabled s && negb (_blinkStateOn s) then (s, [off])
  else
    let pattern := nth (Z.to_nat (_currentDigit s)) (_displayPatterns s) 0 in
    let segs :=
      map (fun bit => DigitalWrite (pin_read (_segmentPins s) bit)
                        (if Z.land pattern (Z.shiftl 1 (7 - bit)) =? 0 then LOW else HIGH))
          (indices NUM_SEGMENTS) in
    (s, off :: segs ++ [DigitalWrite (pin_read (_digitPins s) (_currentDigit s)) HIGH]).

(** [SevenSegment::testWiring(unsigned int delayMs)] *)
Definition testWiring (delayMs : Z) (s : SevenSegment) : SevenSegment * list event :=
  if negb (_isrActive s) then (s, [])
  else
    let seg := _segmentPins s in
    let dig := _digitPins s in
    (s, [Cli; TimskDisable]
        ++ map (fun d => DigitalWrite (pin_read dig d) HIGH) (indices NUM_DIGITS)
        ++ flat_map (fun sg => [DigitalWrite (pin_read seg sg) HIGH; Sei; Delay delayMs;
                                Cli; DigitalWrite (pin_read seg sg) LOW])
                    (indices NUM_SEGMENTS)
        ++ map (fun d => DigitalWrite (pin_read dig d) LOW) (indices NUM_DIGITS)
        ++ [TimskEnable; Sei]).

(** ** Interleaving with the interrupt

    [ticks n s] fires the Timer1 interrupt [n] times; each tick reads the
    DisplayState as it stands when the tick fires, recorded in the list. *)
Fixpoint ticks (n : nat) (s : SevenSegment) : SevenSegment * list (list Z) :=
  match n with
  | O => (s, [])
  | S n' =>
      let seen := _displayPatterns s in
      let '(s1, o) := ticks n' (fst (multiplex s)) in
      (s1, seen :: o)
  end.

(** A renderer's sections run with [nth k ts 0] ticks before the [k]-th
    section (and [nth (length p) ts 0] ticks after the last one). *)
Fixpoint interleave (p : prog) (ts : list nat) (s : SevenSegment)
  : SevenSegment * list (list Z) :=
  match p with
  | [] => ticks (hd O ts) s
  | f :: p' =>
      let '(s1, o1) := ticks (hd O ts) s in
      let '(s2, o2) := interleave p' (tl ts) (f s1) in
      (s2, o1 ++ o2)
  end.

(** The pin arrays of the example sketches. *)
Definition segmentPins_ex : list Z := [2; 3; 4; 5; 6; 7; 8; 9].
Definition digitPins_ex : list Z := [10; 11; 12; 13].

Definition display_ex : SevenSegment :=
  fst (fst (begin (construct (Some segmentPins_ex) (Some digitPins_ex)))).

(** ** Reading a DisplayState back *)

Definition opt_Z_eqb (a b : option Z) : bool :=
  match a, b with
  | Some x, Some y => x =? y
  | None, None => true
  | _, _ => false
  end.

(** Decimal digit [i] (0 = leftmost) of a four-digit value. *)
Definition digit_at (value : Z) (i : nat) : Z := value / 10 ^ (3 - Z.of_nat i) mod 10.

(** Slot [i] holds a leading zero of [value] that suppression blanks. *)
Definition leading_blank (leadingZeros : bool) (value : Z) (i : nat) : bool :=
  negb leadingZeros && (Z.of_nat i <? 3) && (value / 10 ^ (3 - Z.of_nat i) =? 0).

(** The digit whose glyph is the seven-segment part (bits 7..1) of [p]. *)
Definition decode_digit (p : Z) : option Z :=
  find (fun d => pattern_at d =? Z.land p 254) (indices 10).

(** Slot [i] of [d] holds the glyph of digit [i] of [value] (blank for a
    suppressed leading zero), with the decimal-point bit exactly at [dp]. *)
Definition slot_ok (leadingZeros : bool) (value dp : Z) (d : list Z) (i : nat) : bool :=
  let p := nth i d 0 in
  let blank := leading_blank leadingZeros value i in
  (p =? Z.lor (if blank then 0 else pattern_at (digit_at value i))
              (if Z.of_nat i =? dp then 1 else 0))
  && opt_Z_eqb (decode_digit p) (if blank then None else Some (digit_at value i))
  && Bool.eqb (Z.testbit p 0) (Z.of_nat i =? dp).

Definition setNumber_ok (leadingZeros : bool) (value dp : Z) : bool :=
  let d := _displayPatterns (setNumber value dp (setLeadingZeros leadingZeros (construct None None))) in
  (List.length d =? 4)%nat && forallb (slot_ok leadingZeros value dp d) (seq 0 4).

(** [f] holds on every triple of [la], [lb], [lc]. *)
Definition check3 {A B C : Type} (f : A -> B -> C -> bool) (la : list A) (lb : list B)
           (lc : list C) : bool :=
  forallb (fun a => forallb (fun b => forallb (fun c => f a b c) lc) lb) la.



Definition blinking_off_ex : SevenSegment :=
  mkSevenSegment true (Some segmentPins_ex) (Some digitPins_ex) [252; 96; 218; 242]
                 true 3 3 0 true false 500 0 OK.

(** A display after a negative [setFloat]: 4 slots, the minus glyph in slot
    0, and in slots 1..3 the digits of [N] (the magnitude scaled by
    [10 ^ decimals]) as [setNumber] renders them, with the decimal point
    on slot [3 - decimals]. *)
Definition neg_slots_ok (d : list Z) (leadingZeros : bool) (N decimals : Z) : Prop :=
  List.length d = 4%nat
  /\ nth 0 d 0 = getPattern "-"
  /\ forall i : nat, (1 <= i < 4)%nat ->
     nth i d 0 = Z.lor (if leading_blank leadingZeros N i then 0 else pattern_at (digit_at N i))
                       (if Z.of_nat i =? 3 - decimals then 1 else 0).

(** A C string of 257 characters. *)
Definition long_text : list ascii := repeat "A"%char 257.

(** ** Lifecycle, blinking and the interrupt handler *)

Definition set_blink (s : SevenSegment) (enabled on : bool) (interval lastToggle : Z)
  : SevenSegment :=
  mkSevenSegment (_isrActive s) (_segmentPins s) (_digitPins s) (_displayPatterns s)
    (_leadingZeros s) (_currentDigit s) (_refreshIntervalMs s) (_lastRefreshTime s)
    enabled on interval lastToggle (_lastError s).

Definition set_refreshIntervalMs (s : SevenSegment) (ms : Z) : SevenSegment :=
  mkSevenSegment (_isrActive s) (_segmentPins s) (_digitPins s) (_displayPatterns s)
    (_leadingZeros s) (_currentDigit s) ms (_lastRefreshTime s)
    (_blinkEnabled s) (_blinkStateOn s) (_blinkInterval s) (_blinkLastToggle s)
    (_lastError s).

(** [unsigned long] is 32 bits on AVR. *)
Definition ULONG_MOD : Z := 2 ^ 32.

(** [SevenSegment::clear()] *)
Definition clear (s : SevenSegment) : SevenSegment * list event :=
  let blankPattern := pattern_at 10 in
  (set_displayPatterns s
     (fold_left (fun d i => upd_slot i blankPattern d) (seq 0 4) (_displayPatterns s)),
   [Cli; Sei]).

(** [SevenSegment::end()] ([end] is a keyword). *)
Definition end_ (s : SevenSegment) : SevenSegment * list event :=
  let s := set_isrActive s false in
  let '(s, ev) := clear s in
  (s, [Cli; TimskDisable; Sei] ++ ev).

(** [ISR(TIMER1_COMPA_vect)]; [_isrInstance] is the one constructed instance. *)
Definition isr (s : SevenSegment) : SevenSegment * list event :=
  if _isrActive s then multiplex s else (s, []).

(** [n] firings of the interrupt, with the hardware trace. *)
Fixpoint isr_n (n : nat) (s : SevenSegment) : SevenSegment * list event :=
  match n with
  | O => (s, [])
  | S n' =>
      let '(s1, e1) := isr s in
      let '(s2, e2) := isr_n n' s1 in
      (s2, e1 ++ e2)
  end.

(** [SevenSegment::refresh()]; [now] is the value [millis()] returns. *)
Definition refresh (now : Z) (s : SevenSegment) : SevenSegment :=
  if _blinkEnabled s then
    if _blinkInterval s <=? (now - _blinkLastToggle s) mod ULONG_MOD
    then set_blink s (_blinkEnabled s) (negb (_blinkStateOn s)) (_blinkInterval s) now
    else s
  else s.

(** [SevenSegment::startBlink(intervalMs)]; [now] is [millis()]. *)
Definition startBlink (intervalMs now : Z) (s : SevenSegment) : SevenSegment :=
  set_blink s true true intervalMs now.

(** [SevenSegment::stopBlink()] *)
Definition stopBlink (s : SevenSegment) : SevenSegment :=
  set_blink s false true (_blinkInterval s) (_blinkLastToggle s).

(** [SevenSegment::setRefreshInterval(uint8_t ms)] *)
Definition setRefreshInterval (ms : Z) (s : SevenSegment) : SevenSegment :=
  let ms := if ms <? 1 then 1 else ms in
  let ms := if 255 <? ms then 255 else ms in
  set_refreshIntervalMs s ms.

(** Calls of [refresh] at the successive [millis()] readings [times]. *)
Definition refresh_all (times : list Z) (s : SevenSegment) : SevenSegment :=
  fold_left (fun s now => refresh now s) times s.

(** ** The example sketch 03_AdvancedFeatures *)

(** [runDemoMode]'s globals and statics, and the display. *)
Record Demo := mkDemo {
  demoStepTime : Z;
  demo_step : Z;            (** [static uint8_t step] *)
  demo_display : SevenSegment }.

Definition DEMO_STEP_INTERVAL : Z := 2000.

(** [runDemoMode(now)]; [startBlink] reads [millis()], taken as [now].
    The literal [56.78f] is taken as the rational 56.78. *)
Definition runDemoMode (now : Z) (d : Demo) : Demo :=
  if DEMO_STEP_INTERVAL <=? (now - demoStepTime d) mod ULONG_MOD then
    let disp := demo_display d in
    let stp := demo_step d in
    let '(disp, stp) :=
      if stp =? 0 then (setNumber 1234 (-1) disp, stp)
      else if stp =? 1 then (fst (setFloat (FFin (5678 # 100)) disp), stp)
      else if stp =? 2 then (fst (setText (str "HELP") disp), stp)
      else if stp =? 3 then (fst (setText (str "GOOD") disp), stp)
      else if stp =? 4 then (setNumber 5678 0 disp, stp)
      else if stp =? 5 then (startBlink 300 now disp, stp)
      else if stp =? 6 then (fst (setText (str "END") (stopBlink disp)), stp)
      else if stp =? 7 then (disp, 255)
      else (disp, stp) in
    mkDemo now ((stp + 1) mod 256) disp
  else d.

(** [runTextMode]'s statics and the display. *)
Record TextMode := mkTextMode {
  textSwitchTime : Z;
  textIndex : Z;            (** [static uint8_t textIndex] *)
  text_display : SevenSegment }.

Definition texts : list string := ["SSFD"; "TEST"; "GOOD"; "HELP"]%string.

(** [runTextMode(now)] *)
Definition runTextMode (now : Z) (t : TextMode) : TextMode :=
  if 3000 <=? (now - textSwitchTime t) mod ULONG_MOD then
    let disp := fst (setText (str (nth (Z.to_nat (textIndex t)) texts EmptyString)) (text_display t)) in
    mkTextMode now ((textIndex t + 1) mod 4) disp
  else t.

(** [runFixedPointMode]'s statics and the display. *)
Record FixedPoint := mkFixedPoint {
  fpUpdateTime : Z;
  hundredths : Z;           (** [static uint16_t hundredths] *)
  fp_display : SevenSegment }.

(** [runFixedPointMode(now)] *)
Definition runFixedPointMode (now : Z) (f : FixedPoint) : FixedPoint :=
  if 50 <=? (now - fpUpdateTime f) mod ULONG_MOD then
    let h := (hundredths f + 10) mod 65536 in
    let h := if 9999 <? h then 0 else h in
    mkFixedPoint now h (setHundredths h 2 (fp_display f))
  else f.

(** ** Reading traces and characters *)

(** The characters [getPattern] has a glyph for: digits, letters, space,
    '-', '=' and '.'. *)
Definition glyph_char (c : ascii) : bool :=
  let n := nat_of_ascii c in
  ((48 <=? n) && (n <=? 57))%nat || ((65 <=? n) && (n <=? 90))%nat
  || ((97 <=? n) && (n <=? 122))%nat || existsb (Nat.eqb n) [32; 45; 61; 46]%nat.

(** The character of decimal digit [d]. *)
Definition digit_char (d : Z) : ascii := ascii_of_nat (48 + Z.to_nat d).

(** The four-character zero-padded decimal text of a value ([%04u]). *)
Definition decimal4 (value : Z) : list ascii :=
  map (fun i => digit_char (digit_at value i)) (seq 0 4).

(** Segment levels a..dp read back as a byte, bit 7 first. *)
Definition levels_value (ls : list level) : Z :=
  fold_left (fun acc l => 2 * acc + match l with HIGH => 1 | LOW => 0 end) ls 0.

Definition is_delay (e : event) : bool :=
  match e with Delay _ => true | _ => false end.

(** ** Proofs *)

Example setNumber_1234 :
  _displayPatterns (setNumber 1234 1 (construct None None)) = [96; 218 + 1; 242; 102].
Proof. reflexivity. Qed.

Lemma in_indices (n v : Z) : 0 <= v < n -> In v (indices n).
Proof.
  intros Hv. unfold indices. apply in_map_iff. exists (Z.to_nat v). split.
  - apply Z2Nat.id. lia.
  - apply in_seq. lia.
Qed.

Lemma forallb_indices (f : Z -> bool) (n v : Z) :
  forallb f (indices n) = true -> 0 <= v < n -> f v = true.
Proof.
  intros Hall Hv. rewrite forallb_forall in Hall. apply Hall, in_indices, Hv.
Qed.

Lemma setNumber_all_ok_true :
  check3 (fun lz dp v => setNumber_ok lz v dp) [true; false] [-1; 0; 1; 2; 3] (indices 10000)
  = true.
Proof. vm_compute. reflexivity. Qed.

Lemma check3_spec {A B C : Type} (f : A -> B -> C -> bool) la lb lc :
  check3 f la lb lc = true ->
  forall a b c, In a la -> In b lb -> In c lc -> f a b c = true.
Proof.
  unfold check3. intros H a b c Ha Hb Hc. rewrite forallb_forall in H. specialize (H a Ha).
  rewrite forallb_forall in H. specialize (H b Hb).
  rewrite forallb_forall in H. exact (H c Hc).
Qed.

Lemma setNumber_ok_all (lz : bool) (value dp : Z) :
  0 <= value <= 9999 -> -1 <= dp <= 3 -> setNumber_ok lz value dp = true.
Proof.
  intros Hv Hdp.
  apply (check3_spec _ _ _ _ setNumber_all_ok_true).
  - destruct lz; simpl; auto.
  - simpl; lia.
  - apply in_indices; lia.
Qed.

(** The display [setNumber] writes depends on the prior state only
    through the leading-zeros flag. *)
Lemma setNumber_display (value dp : Z) (s s' : SevenSegment) :
  _displayPatterns (setNumber value dp s)
  = _displayPatterns (setNumber value dp (setLeadingZeros (_leadingZeros s) s')).
Proof. reflexivity. Qed.

Lemma opt_Z_eqb_eq (a b : option Z) : opt_Z_eqb a b = true -> a = b.
Proof.
  destruct a as [x|], b as [y|]; simpl; try discriminate; auto.
  intros H. apply Z.eqb_eq in H. subst. reflexivity.
Qed.

(** The slots [setNumber] writes, for a value and decimal-point position in range. *)
Lemma setNumber_slot_facts (s : SevenSegment) (value dp : Z) (i : nat) :
  0 <= value <= 9999 -> -1 <= dp <= 3 -> (i < 4)%nat ->
  let d := _displayPatterns (setNumber value dp s) in
  let blank := leading_blank (_leadingZeros s) value i in
  List.length d = 4%nat
  /\ nth i d 0 = Z.lor (if blank then 0 else pattern_at (digit_at value i))
                       (if Z.of_nat i =? dp then 1 else 0)
  /\ decode_digit (nth i d 0) = (if blank then None else Some (digit_at value i))
  /\ Z.testbit (nth i d 0) 0 = (Z.of_nat i =? dp).
Proof.
  intros Hv Hdp Hi d blank.
  pose proof (setNumber_ok_all (_leadingZeros s) value dp Hv Hdp) as H.
  unfold setNumber_ok in H. rewrite <- (setNumber_display value dp s (construct None None)) in H.
  fold d in H. apply andb_prop in H as [Hlen Hall].
  apply Nat.eqb_eq in Hlen. rewrite forallb_forall in Hall.
  specialize (Hall i ltac:(apply in_seq; lia)). unfold slot_ok in Hall. fold blank in Hall.
  apply andb_prop in Hall as [Hall Hbit]. apply andb_prop in Hall as [Hp Hdec].
  repeat split.
  - exact Hlen.
  - apply Z.eqb_eq, Hp.
  - apply opt_Z_eqb_eq, Hdec.
  - apply Bool.eqb_prop, Hbit.
Qed.

Lemma nth_upd_slot_0 (p : Z) (d : list Z) :
  d <> [] -> nth 0 (upd_slot 0 p d) 0 = p.
Proof. destruct d; [contradiction|reflexivity]. Qed.

Lemma nth_upd_slot_S (p : Z) (d : list Z) (i : nat) :
  nth (S i) (upd_slot 0 p d) 0 = nth (S i) d 0.
Proof. destruct d; reflexivity. Qed.

Lemma length_upd_slot (i : nat) (p : Z) (d : list Z) :
  List.length (upd_slot i p d) = List.length d.
Proof.
  revert i; induction d as [|x d IH]; intros [|i]; simpl; auto.
Qed.

Lemma setNumber_clamp (value dp : Z) (s : SevenSegment) :
  setNumber value dp s = setNumber (if MAX_VALUE <? value then MAX_VALUE else value) dp s.
Proof.
  unfold setNumber. destruct (MAX_VALUE <? value) eqn:E.
  - reflexivity.
  - rewrite E. reflexivity.
Qed.

Lemma ticks_cursor (n : nat) (s : SevenSegment) :
  _currentDigit (fst (ticks (S n) s)) = (_currentDigit (fst (ticks n (fst (multiplex s)))) ).
Proof. simpl. destruct (ticks n (fst (multiplex s))). reflexivity. Qed.

Lemma multiplex_currentDigit (s : SevenSegment) :
  _currentDigit (fst (multiplex s)) = (_currentDigit s + 1) mod NUM_DIGITS.
Proof.
  unfold multiplex. cbn. destruct (_blinkEnabled s && negb (_blinkStateOn s)); reflexivity.
Qed.

Lemma ticks_in_range (n : nat) (s : SevenSegment) :
  0 <= _currentDigit s < 4 \/ n <> O -> 0 <= _currentDigit (fst (ticks n s)) < 4.
Proof.
  revert s. induction n as [|n IH]; intros s H.
  - destruct H as [H|H]; [exact H|contradiction].
  - rewrite ticks_cursor. apply IH. left.
    rewrite multiplex_currentDigit. unfold NUM_DIGITS. apply Z.mod_pos_bound. lia.
Qed.

(** ** Claims *)

(** C7: one multiplex tick sets the scan cursor to (cursor + 1) mod 4,
    whatever the cursor and the blink state; in the blink "off" phase the
    tick only switches the previous digit off (no segment is driven, the
    new digit is not enabled); and after any sequence of ticks the cursor
    is in 0..3 (from a cursor in 0..3, or after at least one tick from any
    cursor value). *)
Theorem multiplex_cursor_mod4 :
  (forall s : SevenSegment,
      _currentDigit (fst (multiplex s)) = (_currentDigit s + 1) mod 4)
  /\ (forall s : SevenSegment,
      _blinkEnabled s = true -> _blinkStateOn s = false ->
      snd (multiplex s) = [DigitalWrite (pin_read (_digitPins s) (_currentDigit s)) LOW])
  /\ (forall (n : nat) (s : SevenSegment),
      0 <= _currentDigit s < 4 \/ n <> O -> 0 <= _currentDigit (fst (ticks n s)) < 4).
Proof.
  split; [|split].
  - intros s. apply multiplex_currentDigit.
  - intros s Hen Hoff. unfold multiplex. cbn. rewrite Hen, Hoff. reflexivity.
  - exact ticks_in_range.
Qed.

Lemma multiplex_cursor_mod4_witness :
  (_blinkEnabled blinking_off_ex = true /\ _blinkStateOn blinking_off_ex = false
   /\ snd (multiplex blinking_off_ex) = [DigitalWrite 13 LOW])
  /\ (0 <= _currentDigit display_ex < 4
      /\ 0 <= _currentDigit (fst (ticks 7 display_ex)) < 4).
Proof.
  split.
  - split; [reflexivity|split; [reflexivity|]].
    apply (proj1 (proj2 multiplex_cursor_mod4)); reflexivity.
  - assert (E : _currentDigit display_ex = 0) by reflexivity.
    split; [rewrite E; lia|].
    apply (proj2 (proj2 multiplex_cursor_mod4)). left. rewrite E. lia.
Defined.

(** C8: [setSegments] with a null pointer changes nothing: the whole
    instance (the four slots and the stored error code) is unchanged, and
    the operation returns no value. *)
Theorem setSegments_null_noop (s : SevenSegment) : setSegments None s = s.
Proof. reflexivity. Qed.

(** C9: for a decimal-point position outside -1..3, [setNumber] behaves as
    [setNumber value (-1)] and sets the decimal-point bit on no slot, while
    [setHundredths] behaves as with position 2. *)
Theorem setNumber_dp_out_of_range (s : SevenSegment) (value dp : Z) :
  0 <= value <= 65535 -> (dp < -1 \/ 3 < dp) ->
  setNumber value dp s = setNumber value (-1) s
  /\ (forall i : nat, Z.testbit (nth i (_displayPatterns (setNumber value dp s)) 0) 0 = false)
  /\ setHundredths value dp s = setHundredths value 2 s
  /\ setHundredths value dp s = setNumber value 2 s.
Proof.
  intros Hv Hdp.
  assert (Hout : (dp <? -1) || (3 <? dp) = true)
    by (apply orb_true_iff; destruct Hdp; [left|right]; apply Z.ltb_lt; lia).
  assert (Heq : setNumber value dp s = setNumber value (-1) s)
    by (unfold setNumber; rewrite Hout; reflexivity).
  split; [exact Heq|split; [|split]].
  - intros i. rewrite Heq.
    set (v' := if MAX_VALUE <? value then MAX_VALUE else value).
    assert (Hv' : 0 <= v' <= 9999)
      by (unfold v', MAX_VALUE; destruct (Z.ltb_spec 9999 value); lia).
    rewrite setNumber_clamp. fold v'.
    destruct (Nat.lt_ge_cases i 4) as [Hi|Hi].
    + destruct (setNumber_slot_facts s v' (-1) i Hv' ltac:(lia) Hi) as (_ & _ & _ & Hb).
      rewrite Hb. apply Z.eqb_neq. lia.
    + destruct (setNumber_slot_facts s v' (-1) 0 Hv' ltac:(lia) ltac:(lia)) as (Hlen & _).
      rewrite nth_overflow by lia. reflexivity.
  - unfold setHundredths. rewrite Hout. reflexivity.
  - unfold setHundredths. rewrite Hout. symmetry. apply setNumber_clamp.
Qed.

Lemma setNumber_dp_out_of_range_witness :
  (0 <= 42 <= 65535 /\ (7 < -1 \/ 3 < 7))
  /\ (setNumber 42 7 display_ex = setNumber 42 (-1) display_ex
      /\ (forall i : nat, Z.testbit (nth i (_displayPatterns (setNumber 42 7 display_ex)) 0) 0 = false)
      /\ setHundredths 42 7 display_ex = setHundredths 42 2 display_ex
      /\ setHundredths 42 7 display_ex = setNumber 42 2 display_ex).
Proof.
  split; [split; lia|].
  apply (setNumber_dp_out_of_range display_ex 42 7); lia.
Defined.

(** C10: when the ISR-active flag is false, [testWiring] returns at once:
    no hardware event (pin write, delay, interrupt masking, timer change)
    and no change to the instance. *)
Theorem testWiring_inactive_noop (s : SevenSegment) (delayMs : Z) :
  _isrActive s = false -> testWiring delayMs s = (s, []).
Proof. intros H. unfold testWiring. rewrite H. reflexivity. Qed.

Lemma testWiring_inactive_noop_witness :
  _isrActive (construct (Some segmentPins_ex) (Some digitPins_ex)) = false
  /\ testWiring 500 (construct (Some segmentPins_ex) (Some digitPins_ex))
     = (construct (Some segmentPins_ex) (Some digitPins_ex), []).
Proof.
  split; [reflexivity|].
  apply testWiring_inactive_noop. reflexivity.
Defined.

(** C1, as stated: with leading-zero suppression on, the blank slot of a
    leading zero decodes to no digit, so [setNumber 5 (-1)] does not
    decode back to the digits 0,0,0,5. *)
Lemma setNumber_suppressed_zero_not_digit :
  ~ (forall (s : SevenSegment) (value dp : Z), 0 <= value <= 9999 -> -1 <= dp <= 3 ->
       List.length (_displayPatterns (setNumber value dp s)) = 4%nat
       /\ forall i : nat, (i < 4)%nat ->
          decode_digit (nth i (_displayPatterns (setNumber value dp s)) 0)
          = Some (digit_at value i)
          /\ Z.testbit (nth i (_displayPatterns (setNumber value dp s)) 0) 0
             = (Z.of_nat i =? dp)).
Proof.
  intros H.
  destruct (H (setLeadingZeros false display_ex) 5 (-1) ltac:(lia) ltac:(lia)) as [_ Hs].
  destruct (Hs 0%nat ltac:(lia)) as [Hd _].
  vm_compute in Hd. discriminate Hd.
Qed.

(** C1 (amended): for every value in 0..9999 and decimal-point position in
    -1..3, [setNumber] writes exactly 4 slots; slot [i] carries the
    decimal-point bit (bit 0) iff [i = dp]; its glyph part decodes to the
    decimal digit [i] of [value] (slot 0 leftmost), except that when the
    leading-zeros flag is false (suppression on) a zero digit before the
    first nonzero digit in slots 0..2 is blank and decodes to no digit. *)
Theorem setNumber_digits_and_dp (s : SevenSegment) (value dp : Z) :
  0 <= value <= 9999 -> -1 <= dp <= 3 ->
  List.length (_displayPatterns (setNumber value dp s)) = 4%nat
  /\ forall i : nat, (i < 4)%nat ->
     let p := nth i (_displayPatterns (setNumber value dp s)) 0 in
     decode_digit p = (if leading_blank (_leadingZeros s) value i then None
                       else Some (digit_at value i))
     /\ Z.testbit p 0 = (Z.of_nat i =? dp)
     /\ p = Z.lor (if leading_blank (_leadingZeros s) value i then 0
                   else pattern_at (digit_at value i))
                  (if Z.of_nat i =? dp then 1 else 0).
Proof.
  intros Hv Hdp. split.
  - apply (setNumber_slot_facts s value dp 0 Hv Hdp). lia.
  - intros i Hi p.
    destruct (setNumber_slot_facts s value dp i Hv Hdp Hi) as (_ & Hp & Hdec & Hb).
    repeat split; assumption.
Qed.

Lemma setNumber_digits_and_dp_witness :
  (0 <= 1234 <= 9999 /\ -1 <= 2 <= 3)
  /\ (List.length (_displayPatterns (setNumber 1234 2 display_ex)) = 4%nat
      /\ forall i : nat, (i < 4)%nat ->
         let p := nth i (_displayPatterns (setNumber 1234 2 display_ex)) 0 in
         decode_digit p = (if leading_blank (_leadingZeros display_ex) 1234 i then None
                           else Some (digit_at 1234 i))
         /\ Z.testbit p 0 = (Z.of_nat i =? 2)
         /\ p = Z.lor (if leading_blank (_leadingZeros display_ex) 1234 i then 0
                       else pattern_at (digit_at 1234 i))
                      (if Z.of_nat i =? 2 then 1 else 0)).
Proof.
  split; [split; lia|].
  apply (setNumber_digits_and_dp display_ex 1234 2); lia.
Defined.

(** C5, as stated: without suppression enabled (the constructor's default,
    no call to [setLeadingZeros]) leading zeros would be blank; the code
    shows them as the '0' glyph: slot 0 of [setNumber 5 (-1)] is 252. *)
Lemma setNumber_default_shows_leading_zero :
  ~ (forall (value dp : Z) (i : nat), 0 <= value <= 9999 -> -1 <= dp <= 3 ->
       (i < 3)%nat -> value / 10 ^ (3 - Z.of_nat i) = 0 ->
       Z.land (nth i (_displayPatterns (setNumber value dp display_ex)) 0) 254 = 0).
Proof.
  intros H. specialize (H 5 (-1) 0%nat ltac:(lia) ltac:(lia) ltac:(lia) eq_refl).
  vm_compute in H. discriminate H.
Qed.

(** C5 (amended): the leading-zeros flag is true after construction; with
    the flag false (after [setLeadingZeros false]) [setNumber] blanks every
    zero digit before the first nonzero digit, except the rightmost slot;
    with the flag true every slot shows its digit glyph, leading zeros as '0'. *)
Theorem setNumber_leading_zero_blanking (s : SevenSegment) (lz : bool) (value dp : Z) (i : nat) :
  0 <= value <= 9999 -> -1 <= dp <= 3 -> (i < 4)%nat ->
  _leadingZeros (construct (_segmentPins s) (_digitPins s)) = true
  /\ Z.land (nth i (_displayPatterns (setNumber value dp (setLeadingZeros lz s))) 0) 254
     = (if negb lz && (Z.of_nat i <? 3) && (value / 10 ^ (3 - Z.of_nat i) =? 0)
        then 0 else pattern_at (digit_at value i)).
Proof.
  intros Hv Hdp Hi. split; [reflexivity|].
  destruct (setNumber_slot_facts (setLeadingZeros lz s) value dp i Hv Hdp Hi) as (_ & Hp & _).
  rewrite Hp. unfold leading_blank. simpl _leadingZeros.
  assert (Hd : 0 <= digit_at value i < 10) by (unfold digit_at; apply Z.mod_pos_bound; lia).
  destruct (negb lz && (Z.of_nat i <? 3) && (value / 10 ^ (3 - Z.of_nat i) =? 0));
    destruct (Z.of_nat i =? dp);
    [reflexivity | reflexivity | |];
    (assert (Hc : digit_at value i = 0 \/ digit_at value i = 1 \/ digit_at value i = 2
                  \/ digit_at value i = 3 \/ digit_at value i = 4 \/ digit_at value i = 5
                  \/ digit_at value i = 6 \/ digit_at value i = 7 \/ digit_at value i = 8
                  \/ digit_at value i = 9) by lia;
     destruct Hc as [E|[E|[E|[E|[E|[E|[E|[E|[E|E]]]]]]]]]; rewrite E; reflexivity).
Qed.

Lemma setNumber_leading_zero_blanking_witness :
  (0 <= 42 <= 9999 /\ -1 <= 1 <= 3 /\ (0 < 4)%nat)
  /\ (_leadingZeros (construct (_segmentPins display_ex) (_digitPins display_ex)) = true
      /\ Z.land (nth 0 (_displayPatterns (setNumber 42 1 (setLeadingZeros false display_ex))) 0) 254
         = (if negb false && (Z.of_nat 0 <? 3) && (42 / 10 ^ (3 - Z.of_nat 0) =? 0)
            then 0 else pattern_at (digit_at 42 0))).
Proof.
  split; [repeat split; lia|].
  apply (setNumber_leading_zero_blanking display_ex false 42 1 0); lia.
Defined.

Lemma setFloat_neg_display (s : SevenSegment) (v : Q) (N dp : Z) :
  (v < 0)%Q -> Qle_bool v (-100) = false ->
  (if negb (Qle_bool v (-10)) then (to_uint16 (roundQ (round_f32 (Qabs v * 100))), 1)
   else (to_uint16 (roundQ (round_f32 (Qabs v * 10))), 2)) = (N, dp) ->
  _displayPatterns (fst (setFloat (FFin v) s))
  = upd_slot 0 (getPattern "-") (_displayPatterns (setNumber N dp s)).
Proof.
  intros Hv H100 Hnd. unfold setFloat, setFloat_prog.
  assert (H0 : Qle_bool 0 v = false).
  { destruct (Qle_bool 0 v) eqn:E; [|reflexivity].
    apply Qle_bool_iff in E. exfalso. lra. }
  rewrite H0, H100. simpl negb. cbv iota. rewrite Hnd. reflexivity.
Qed.

Lemma neg_slots_from_setNumber (s : SevenSegment) (N decimals : Z) :
  0 <= N <= 9999 -> 1 <= decimals <= 2 ->
  neg_slots_ok (upd_slot 0 (getPattern "-") (_displayPatterns (setNumber N (3 - decimals) s)))
               (_leadingZeros s) N decimals.
Proof.
  intros HN Hk.
  destruct (setNumber_slot_facts s N (3 - decimals) 0 HN ltac:(lia) ltac:(lia)) as (Hlen & _).
  split; [|split].
  - rewrite length_upd_slot. exact Hlen.
  - apply nth_upd_slot_0. intros E. rewrite E in Hlen. discriminate.
  - intros [|i] Hi; [lia|]. rewrite nth_upd_slot_S.
    destruct (setNumber_slot_facts s N (3 - decimals) (S i) HN ltac:(lia) ltac:(lia))
      as (_ & Hp & _).
    exact Hp.
Qed.

Lemma Qfloor_ge (v : Q) (m : Z) : (inject_Z m <= v)%Q -> m <= Qfloor v.
Proof. intros H. rewrite <- (Qfloor_Z m). apply Qfloor_resp_le, H. Qed.

Lemma Qfloor_lt (v : Q) (m : Z) : (v < inject_Z m)%Q -> Qfloor v < m.
Proof.
  intros H. pose proof (Qfloor_le v) as Hf.
  assert (Hlt : (inject_Z (Qfloor v) < inject_Z m)%Q) by lra.
  rewrite <- Zlt_Qlt in Hlt. exact Hlt.
Qed.

Lemma inject_Z_nonneg (z : Z) : 0 <= z -> (0 <= inject_Z z)%Q.
Proof. intros H. unfold Qle. simpl. lia. Qed.

Lemma inject_Z_pos (z : Z) : 0 < z -> (0 < inject_Z z)%Q.
Proof. intros H. unfold Qlt. simpl. lia. Qed.

Lemma roundQ_Qeq (x y : Q) : (x == y)%Q -> roundQ x = roundQ y.
Proof.
  intros H. unfold roundQ.
  destruct (Qle_bool 0 x) eqn:Ex, (Qle_bool 0 y) eqn:Ey.
  - apply Qfloor_comp. rewrite H. reflexivity.
  - apply Qle_bool_iff in Ex. rewrite H in Ex. apply Qle_bool_iff in Ex. congruence.
  - apply Qle_bool_iff in Ey. rewrite <- H in Ey. apply Qle_bool_iff in Ey. congruence.
  - f_equal. apply Qfloor_comp. rewrite H. reflexivity.
Qed.

Lemma roundQ_nonneg_bound (x : Q) (m : Z) :
  (0 <= x)%Q -> (x <= inject_Z m)%Q -> 0 <= roundQ x <= m.
Proof.
  intros H0 H1. unfold roundQ.
  assert (Hb : Qle_bool 0 x = true) by (apply Qle_bool_iff; exact H0).
  rewrite Hb. split.
  - apply Qfloor_ge. unfold inject_Z at 1. lra.
  - assert (Hlt : Qfloor (x + (1 # 2)) < m + 1).
    { apply Qfloor_lt. rewrite inject_Z_plus. unfold inject_Z at 2. lra. }
    lia.
Qed.

Lemma flog2_lt (x : Q) (m : Z) :
  (0 < x)%Q -> 0 <= m -> (x < inject_Z (2 ^ m))%Q -> flog2 x < m.
Proof.
  destruct x as [n d]. unfold Qlt, flog2. cbn [Qnum Qden inject_Z]. intros Hn Hm Hx.
  assert (Hn' : 0 < n) by lia. assert (Hx' : n < 2 ^ m * Zpos d) by lia.
  clear Hn Hx. rename Hn' into Hn, Hx' into Hx.
  rewrite Z.abs_eq by lia.
  pose proof (Z.log2_spec n Hn) as [Hn1 Hn2].
  pose proof (Z.log2_spec (Zpos d) ltac:(lia)) as [Hd1 Hd2].
  pose proof (Z.log2_nonneg n). pose proof (Z.log2_nonneg (Zpos d)).
  assert (Hle : Z.log2 n - Z.log2 (Zpos d) <= m).
  { assert (H2 : 2 ^ Z.log2 n < 2 ^ (m + Z.succ (Z.log2 (Zpos d)))).
    { rewrite Z.pow_add_r by lia. nia. }
    apply Z.pow_lt_mono_r_iff in H2; lia. }
  set (l := Z.log2 n - Z.log2 (Zpos d)) in *.
  destruct (Z.leb_spec 0 l) as [E0|E0].
  - match goal with |- context [if ?c then _ else _] => destruct c eqn:E1 end; [|lia].
    apply Z.leb_le in E1.
    assert (H2 : 2 ^ l < 2 ^ m) by nia.
    apply Z.pow_lt_mono_r_iff in H2; lia.
  - match goal with |- context [if ?c then _ else _] => destruct c end; lia.
Qed.

Lemma round_half_even_bounds (n : Z) (d : positive) (M : Z) :
  0 <= n -> n < M * Zpos d -> 0 <= round_half_even n d <= M.
Proof.
  intros H0 H1. unfold round_half_even.
  assert (Hq0 : 0 <= n / Zpos d) by (apply Z.div_pos; lia).
  assert (Hq1 : n / Zpos d < M) by (apply Z.div_lt_upper_bound; lia).
  destruct (Z.compare _ _); [destruct (Z.even _)| |]; lia.
Qed.

Lemma pow2Q_inv (e : Z) : e <= 0 -> (pow2Q e * inject_Z (2 ^ (- e)) == 1)%Q.
Proof.
  intros He. unfold pow2Q. destruct (Z.leb_spec 0 e) as [H|H].
  - replace e with 0 by lia. reflexivity.
  - assert (Hp : 0 < 2 ^ (- e)) by (apply Z.pow_pos_nonneg; lia).
    unfold Qeq, Qmult. cbn [Qnum Qden inject_Z]. rewrite Pos2Z.inj_mul, Z2Pos.id by lia. lia.
Qed.

Lemma pow2Q_pos (e : Z) : (0 < pow2Q e)%Q.
Proof.
  unfold pow2Q. destruct (Z.leb_spec 0 e).
  - apply inject_Z_pos, Z.pow_pos_nonneg; lia.
  - reflexivity.
Qed.

(** A float product below an integer [K <= 2 ^ 24] rounds to at most [K]. *)
Lemma round_f32_bound (x : Q) (K : Z) :
  (0 <= x)%Q -> (x < inject_Z K)%Q -> 0 < K <= 2 ^ 24 -> (0 <= round_f32 x <= inject_Z K)%Q.
Proof.
  intros H0 HK HK'. unfold round_f32.
  destruct (Qeq_bool x 0) eqn:Ez.
  { split; [lra|apply inject_Z_nonneg; lia]. }
  assert (Hx : (0 < x)%Q).
  { apply Qle_lteq in H0 as [H0|H0]; [exact H0|].
    exfalso. assert (Qeq_bool x 0 = true) by (apply Qeq_bool_iff; symmetry; exact H0). congruence. }
  set (e := Z.max (flog2 x - 23) (-149)).
  assert (He : e <= 0).
  { assert (flog2 x < 24); [|unfold e; lia].
    apply flog2_lt; [exact Hx|lia|].
    apply Qlt_le_trans with (inject_Z K); [exact HK|]. rewrite <- Zle_Qle. exact (proj2 HK'). }
  set (P := 2 ^ (- e)).
  assert (HP : 0 < P) by (apply Z.pow_pos_nonneg; lia).
  assert (Hinv := pow2Q_inv e He). fold P in Hinv.
  assert (Hpos := pow2Q_pos e).
  set (y := Qdiv x (pow2Q e)).
  assert (Hne : ~ (pow2Q e == 0)%Q)
    by (intros E; rewrite E in Hpos; exact (Qlt_irrefl 0 Hpos)).
  assert (Hy : (y == x * inject_Z P)%Q).
  { unfold y, Qdiv. apply Qmult_comp; [reflexivity|].
    rewrite <- (Qmult_1_l (/ pow2Q e)), <- Hinv. field. exact Hne. }
  clearbody y.
  assert (HPq : (0 < inject_Z P)%Q) by (apply inject_Z_pos; exact HP).
  assert (Hy0 : (0 <= y)%Q) by (rewrite Hy; apply Qmult_le_0_compat; lra).
  assert (Hy1 : (y < inject_Z (K * P))%Q).
  { rewrite Hy, inject_Z_mult. apply Qmult_lt_compat_r; assumption. }
  assert (HR : 0 <= round_half_even (Qnum y) (Qden y) <= K * P).
  { apply round_half_even_bounds.
    - unfold Qle in Hy0. cbn [Qnum Qden] in Hy0. lia.
    - unfold Qlt in Hy1. cbn [Qnum Qden inject_Z] in Hy1. lia. }
  split.
  - apply Qmult_le_0_compat; [apply inject_Z_nonneg; lia|lra].
  - apply Qle_trans with (inject_Z (K * P) * pow2Q e)%Q.
    + apply Qmult_le_compat_r; [rewrite <- Zle_Qle; lia|lra].
    + rewrite inject_Z_mult, <- Qmult_assoc, (Qmult_comm (inject_Z P)), Hinv, Qmult_1_r.
      apply Qle_refl.
Qed.

(** C3: for a negative finite value, [setFloat] returns OK; at or below
    -100 it shows the text "-999"; otherwise it renders the magnitude with
    2 decimal digits (magnitude below 10) or 1 decimal digit (magnitude at
    or above 10), i.e. the digits of [roundf] of the [float] product
    [fabs(value) * 100.0f] or [fabs(value) * 10.0f], and puts the minus
    glyph over slot 0.  In particular
    [setFloat(-12.5)] shows minus, 1, 2 with the decimal point, 5. *)
Theorem setFloat_negative_render :
  (forall (s : SevenSegment) (v : Q), (v < 0)%Q ->
     snd (setFloat (FFin v) s) = OK
     /\ ((v <= -100)%Q ->
         _displayPatterns (fst (setFloat (FFin v) s)) = map getPattern (list_ascii_of_string "-999"))
     /\ ((-100 < v <= -10)%Q ->
         neg_slots_ok (_displayPatterns (fst (setFloat (FFin v) s))) (_leadingZeros s)
                      (roundQ (round_f32 (Qabs v * 10))) 1)
     /\ ((-10 < v)%Q ->
         neg_slots_ok (_displayPatterns (fst (setFloat (FFin v) s))) (_leadingZeros s)
                      (roundQ (round_f32 (Qabs v * 100))) 2))
  /\ (forall s : SevenSegment,
        _displayPatterns (fst (setFloat (FFin (-25 # 2)) s))
        = [getPattern "-"; pattern_at 1; Z.lor (pattern_at 2) (pattern_at 11); pattern_at 5]).
Proof.
  split.
  - intros s v Hv.
    assert (H0 : Qle_bool 0 v = false).
    { destruct (Qle_bool 0 v) eqn:E; [|reflexivity].
      apply Qle_bool_iff in E. exfalso. lra. }
    split; [|split; [|split]].
    + unfold setFloat, setFloat_prog. rewrite H0. simpl negb. cbv iota.
      destruct (Qle_bool v (-100)); [reflexivity|].
      destruct (Qle_bool v (-10)); reflexivity.
    + intros H100. apply Qle_bool_iff in H100.
      unfold setFloat, setFloat_prog. rewrite H0, H100. reflexivity.
    + intros [H100 H10].
      assert (E100 : Qle_bool v (-100) = false).
      { destruct (Qle_bool v (-100)) eqn:E; [|reflexivity].
        apply Qle_bool_iff in E. exfalso. lra. }
      assert (E10 : Qle_bool v (-10) = true) by (apply Qle_bool_iff; exact H10).
      assert (HN : 0 <= roundQ (round_f32 (Qabs v * 10)) <= 1000).
      { apply roundQ_nonneg_bound; apply (round_f32_bound _ 1000);
          try (rewrite (Qabs_neg v) by lra; unfold inject_Z; lra); lia. }
      rewrite (setFloat_neg_display s v (roundQ (round_f32 (Qabs v * 10))) 2 Hv E100).
      * apply (neg_slots_from_setNumber s (roundQ (round_f32 (Qabs v * 10))) 1); lia.
      * rewrite E10. simpl negb. cbv iota. unfold to_uint16.
        rewrite Z.mod_small by lia. reflexivity.
    + intros H10.
      assert (E100 : Qle_bool v (-100) = false).
      { destruct (Qle_bool v (-100)) eqn:E; [|reflexivity].
        apply Qle_bool_iff in E. exfalso. lra. }
      assert (E10 : Qle_bool v (-10) = false).
      { destruct (Qle_bool v (-10)) eqn:E; [|reflexivity].
        apply Qle_bool_iff in E. exfalso. lra. }
      assert (HN : 0 <= roundQ (round_f32 (Qabs v * 100)) <= 1000).
      { apply roundQ_nonneg_bound; apply (round_f32_bound _ 1000);
          try (rewrite (Qabs_neg v) by lra; unfold inject_Z; lra); lia. }
      rewrite (setFloat_neg_display s v (roundQ (round_f32 (Qabs v * 100))) 1 Hv E100).
      * apply (neg_slots_from_setNumber s (roundQ (round_f32 (Qabs v * 100))) 2); lia.
      * rewrite E10. simpl negb. cbv iota. unfold to_uint16.
        rewrite Z.mod_small by lia. reflexivity.
  - intros s. unfold setFloat. simpl.
    destruct (_leadingZeros s); reflexivity.
Qed.

Lemma setFloat_negative_render_witness :
  ((-10480517 # 1048576) < 0)%Q /\ (-10 < (-10480517 # 1048576))%Q
  /\ neg_slots_ok (_displayPatterns (fst (setFloat (FFin (-10480517 # 1048576)) display_ex)))
                  (_leadingZeros display_ex) (roundQ (round_f32 (Qabs (-10480517 # 1048576) * 100))) 2
  /\ roundQ (round_f32 (Qabs (-10480517 # 1048576) * 100)) = 1000.
Proof.
  split; [reflexivity|split; [reflexivity|split; [|vm_compute; reflexivity]]].
  apply (proj1 setFloat_negative_render display_ex (-10480517 # 1048576) ltac:(reflexivity)).
  reflexivity.
Defined.

Lemma run_app (p q : prog) (s : SevenSegment) : run (p ++ q) s = run q (run p s).
Proof. unfold run. apply fold_left_app. Qed.

(** [begin] stores its result as the last error. *)
Lemma begin_sets_lastError (s : SevenSegment) :
  _lastError (fst (fst (begin s))) = snd (begin s).
Proof.
  unfold begin. destruct (_segmentPins s), (_digitPins s); try reflexivity.
  destruct (existsb _ _); [reflexivity|]. destruct (existsb _ _); reflexivity.
Qed.

(** [setFloat] stores its result as the last error. *)
Lemma setFloat_sets_lastError (v : float) (s : SevenSegment) :
  _lastError (fst (setFloat v s)) = snd (setFloat v s).
Proof.
  unfold setFloat, setFloat_prog. destruct v as [| |q].
  - cbn [fst snd]. rewrite run_app. reflexivity.
  - cbn [fst snd]. rewrite run_app. reflexivity.
  - destruct (negb (Qle_bool 0 q)).
    + destruct (Qle_bool q (-100)); [cbn [fst snd]; rewrite run_app; reflexivity|].
      destruct (negb (Qle_bool q (-10))); reflexivity.
    + reflexivity.
Qed.

(** A failing [setText] (null pointer, or a length above 4 modulo 256)
    leaves the instance unchanged. *)
Lemma setText_error_unchanged (text : option (list ascii)) (s : SevenSegment) :
  snd (setText text s) <> OK -> fst (setText text s) = s.
Proof.
  unfold setText, setText_prog. destruct text as [t|]; [|reflexivity].
  destruct (NUM_DIGITS <? Z.of_nat (strlen t) mod 256); [reflexivity|].
  simpl. intros H. contradiction H. reflexivity.
Qed.

Lemma multiplex_keeps_display (s : SevenSegment) :
  _displayPatterns (fst (multiplex s)) = _displayPatterns s
  /\ _leadingZeros (fst (multiplex s)) = _leadingZeros s.
Proof. unfold multiplex. cbn. destruct (_blinkEnabled s && negb (_blinkStateOn s)); split; reflexivity. Qed.

Lemma ticks_keep_display (n : nat) (s : SevenSegment) :
  _displayPatterns (fst (ticks n s)) = _displayPatterns s
  /\ _leadingZeros (fst (ticks n s)) = _leadingZeros s
  /\ (forall fr, In fr (snd (ticks n s)) -> fr = _displayPatterns s).
Proof.
  revert s. induction n as [|n IH]; intros s.
  - simpl. repeat split; intros fr [].
  - simpl. destruct (multiplex_keeps_display s) as [Hd Hl].
    destruct (IH (fst (multiplex s))) as (Hd' & Hl' & Hf').
    destruct (ticks n (fst (multiplex s))) as [s1 o] eqn:E. simpl in *.
    split; [congruence|split; [congruence|]].
    intros fr [<-|Hin]; [reflexivity|]. rewrite (Hf' fr Hin). exact Hd.
Qed.

(** A renderer published in one atomic section, whose written display
    depends only on the prior display and the leading-zeros flag, is seen
    by every tick either as the prior frame or as its own output. *)
Lemma one_section_frames (f : step) (ts : list nat) (s : SevenSegment) :
  (forall s1 s2, _displayPatterns s1 = _displayPatterns s2 ->
                 _leadingZeros s1 = _leadingZeros s2 ->
                 _displayPatterns (f s1) = _displayPatterns (f s2)) ->
  forall fr, In fr (snd (interleave [f] ts s)) ->
             fr = _displayPatterns s \/ fr = _displayPatterns (f s).
Proof.
  intros Hf fr. simpl.
  destruct (ticks_keep_display (hd O ts) s) as (Hd1 & Hl1 & Hf1).
  destruct (ticks (hd O ts) s) as [s1 o1] eqn:E1. simpl in *.
  destruct (ticks_keep_display (hd O (tl ts)) (f s1)) as (Hd2 & Hl2 & Hf2).
  destruct (ticks (hd O (tl ts)) (f s1)) as [s2 o2] eqn:E2. simpl in *.
  intros Hin. apply in_app_or in Hin as [Hin|Hin].
  - left. apply Hf1, Hin.
  - right. rewrite (Hf2 fr Hin). apply Hf; assumption.
Qed.

Lemma setNumber_frames (value dp : Z) (ts : list nat) (s : SevenSegment) :
  forall fr, In fr (snd (interleave [setNumber value dp] ts s)) ->
             fr = _displayPatterns s \/ fr = _displayPatterns (setNumber value dp s).
Proof. apply one_section_frames. intros s1 s2 _ Hl. unfold setNumber. simpl. rewrite Hl. reflexivity. Qed.

Lemma setText_frames (text : option (list ascii)) (ts : list nat) (s : SevenSegment) :
  forall fr, In fr (snd (interleave (fst (setText_prog text)) ts s)) ->
             fr = _displayPatterns s \/ fr = _displayPatterns (fst (setText text s)).
Proof.
  unfold setText, setText_prog. destruct text as [t|].
  - destruct (NUM_DIGITS <? Z.of_nat (strlen t) mod 256).
    + intros fr Hin. simpl in Hin.
      destruct (ticks_keep_display (hd O ts) s) as (_ & _ & Hf). left. apply Hf, Hin.
    + apply one_section_frames. intros s1 s2 _ _. reflexivity.
  - intros fr Hin. simpl in Hin.
    destruct (ticks_keep_display (hd O ts) s) as (_ & _ & Hf). left. apply Hf, Hin.
Qed.

Lemma setSegments_frames (patterns : option (list Z)) (ts : list nat) (s : SevenSegment) :
  forall fr, In fr (snd (interleave [setSegments patterns] ts s)) ->
             fr = _displayPatterns s \/ fr = _displayPatterns (setSegments patterns s).
Proof.
  apply one_section_frames. intros s1 s2 Hd _. destruct patterns; simpl; [reflexivity|exact Hd].
Qed.

(** C2: the negative branch of [setFloat] publishes its frame in two
    atomic sections (the [setNumber] block, then the minus glyph).  A tick
    between them reads the DisplayState 0,1,2.,5: neither the prior
    (blank) display nor the final minus,1,2.,5 frame. *)
Theorem setFloat_negative_split_publish :
  let p := fst (setFloat_prog (FFin (-25 # 2))) in
  snd (interleave p [0; 1; 0; 0]%nat display_ex) = [[252; 96; 219; 182]]
  /\ _displayPatterns display_ex = [0; 0; 0; 0]
  /\ _displayPatterns (fst (interleave p [0; 1; 0; 0]%nat display_ex)) = [2; 96; 219; 182]
  /\ _displayPatterns (fst (setFloat (FFin (-25 # 2)) display_ex)) = [2; 96; 219; 182].
Proof. vm_compute. repeat split. Qed.

(** C4: [uint8_t len = strlen(text)] keeps the length modulo 256: a
    257-character string passes the length check as length 1, [setText]
    returns OK and overwrites the display with 'A' and three blanks. *)
Theorem setText_length_wraps_uint8 :
  strlen long_text = 257%nat
  /\ setText (Some long_text) (setNumber 1234 (-1) display_ex)
     = (set_displayPatterns (setNumber 1234 (-1) display_ex) [getPattern "A"; 0; 0; 0], OK)
  /\ _displayPatterns (setNumber 1234 (-1) display_ex) = [96; 218; 242; 102].
Proof. vm_compute. repeat split. Qed.

(** C6: [setText] returns its error without storing it: after a rejected
    [setText("TOOLONG")] or [setText(nullptr)] the stored last error is
    still OK. *)
Theorem setText_keeps_lastError :
  setText (str "TOOLONG") display_ex = (display_ex, INVALID_ARGUMENT)
  /\ setText None display_ex = (display_ex, NULL_POINTER)
  /\ _lastError display_ex = OK.
Proof. vm_compute. repeat split. Qed.

(** ** Further properties of the driver *)

Lemma all_ascii (P : ascii -> bool) :
  forallb (fun n => P (ascii_of_nat n)) (seq 0 256) = true -> forall c, P c = true.
Proof.
  intros H c. rewrite <- (ascii_nat_embedding c).
  rewrite forallb_forall in H. apply H, in_seq.
  pose proof (nat_ascii_bounded c). lia.
Qed.

(** [getPattern] does not distinguish the case of a letter: a lower-case
    letter (codes 97..122) has the glyph of its upper-case letter. *)
Theorem getPattern_case_insensitive (n : nat) :
  (97 <= n <= 122)%nat -> getPattern (ascii_of_nat n) = getPattern (ascii_of_nat (n - 32)).
Proof.
  intros Hn.
  assert (H : forallb (fun n => getPattern (ascii_of_nat n) =? getPattern (ascii_of_nat (n - 32)))
                      (seq 97 26) = true) by (vm_compute; reflexivity).
  rewrite forallb_forall in H. apply Z.eqb_eq, H, in_seq. lia.
Qed.

Lemma getPattern_case_insensitive_witness :
  (97 <= 113 <= 122)%nat /\ getPattern "q" = getPattern "Q".
Proof.
  split; [lia|]. exact (getPattern_case_insensitive 113 ltac:(lia)).
Defined.

(** Every character outside digits, letters, space, '-', '=' and '.'
    (including the codes 128..255, negative as [char]) is shown blank. *)
Theorem getPattern_unsupported_blank (c : ascii) :
  glyph_char c = false -> getPattern c = 0.
Proof.
  revert c.
  assert (H : forall c, glyph_char c || (getPattern c =? 0) = true)
    by (apply all_ascii; vm_compute; reflexivity).
  intros c Hc. specialize (H c). rewrite Hc in H. apply Z.eqb_eq, H.
Qed.

Lemma getPattern_unsupported_blank_witness :
  glyph_char "?" = false /\ getPattern "?" = 0 /\ glyph_char "200" = false /\ getPattern "200" = 0.
Proof.
  split; [reflexivity|split; [apply getPattern_unsupported_blank; reflexivity|]].
  split; [reflexivity|apply getPattern_unsupported_blank; reflexivity].
Defined.

(** Every glyph is a byte, and its decimal-point bit (bit 0) is set for
    the character '.' and for no other character. *)
Theorem getPattern_dp_bit (c : ascii) :
  0 <= getPattern c < 256 /\ Z.testbit (getPattern c) 0 = (c =? ".")%char.
Proof.
  assert (H : forall c, (0 <=? getPattern c) && (getPattern c <? 256)
                        && Bool.eqb (Z.testbit (getPattern c) 0) (c =? ".")%char = true)
    by (apply all_ascii; vm_compute; reflexivity).
  specialize (H c). apply andb_prop in H as [H Hb]. apply andb_prop in H as [H0 H1].
  split; [split; [apply Z.leb_le, H0 | apply Z.ltb_lt, H1] | apply Bool.eqb_prop, Hb].
Qed.

(** [setFloat] of a NaN or an infinity shows "Err ", stores
    [INVALID_ARGUMENT] as the last error and returns it. *)
Theorem setFloat_not_finite (s : SevenSegment) (negative : bool) :
  let err := (set_lastError INVALID_ARGUMENT
                (set_displayPatterns s [getPattern "E"; getPattern "r"; getPattern "r"; getPattern " "]),
              INVALID_ARGUMENT) in
  setFloat FNaN s = err /\ setFloat (FInf negative) s = err
  /\ [getPattern "E"; getPattern "r"; getPattern "r"; getPattern " "] = [158; 10; 10; 0].
Proof. split; [reflexivity|split; reflexivity]. Qed.

(** [clear] blanks the four slots inside one interrupt-free section and
    changes nothing else. *)
Theorem clear_blanks (s : SevenSegment) :
  List.length (_displayPatterns s) = 4%nat ->
  clear s = (set_displayPatterns s [0; 0; 0; 0], [Cli; Sei]).
Proof.
  intros H. unfold clear.
  destruct (_displayPatterns s) as [|a [|b [|c [|d [|e l]]]]]; try discriminate.
  reflexivity.
Qed.

Lemma clear_blanks_witness :
  List.length (_displayPatterns display_ex) = 4%nat
  /\ clear display_ex = (set_displayPatterns display_ex [0; 0; 0; 0], [Cli; Sei]).
Proof. split; [reflexivity|apply clear_blanks; reflexivity]. Defined.

Lemma isr_n_inactive (n : nat) (s : SevenSegment) :
  _isrActive s = false -> isr_n n s = (s, []).
Proof.
  intros H. induction n as [|n IH]; simpl; [reflexivity|].
  unfold isr. rewrite H, IH. reflexivity.
Qed.

(** After [end()], the Timer1 interrupt is masked, the display is blank,
    and the interrupt handler does nothing however often it fires: no pin
    is written and the state is unchanged. *)
Theorem end_stops_display (s : SevenSegment) (n : nat) :
  List.length (_displayPatterns s) = 4%nat ->
  let s' := fst (end_ s) in
  snd (end_ s) = [Cli; TimskDisable; Sei; Cli; Sei]
  /\ _isrActive s' = false /\ _displayPatterns s' = [0; 0; 0; 0]
  /\ isr_n n s' = (s', []).
Proof.
  intros H s'.
  assert (E : end_ s = (set_displayPatterns (set_isrActive s false) [0; 0; 0; 0],
                        [Cli; TimskDisable; Sei; Cli; Sei])).
  { unfold end_. rewrite clear_blanks by exact H. reflexivity. }
  unfold s'. rewrite E. split; [reflexivity|split; [reflexivity|split; [reflexivity|]]].
  apply isr_n_inactive. reflexivity.
Qed.

Lemma end_stops_display_witness :
  List.length (_displayPatterns display_ex) = 4%nat
  /\ isr_n 5 (fst (end_ display_ex)) = (fst (end_ display_ex), []).
Proof.
  split; [reflexivity|]. apply (end_stops_display display_ex 5). reflexivity.
Defined.

(** [setRefreshInterval] stores a value in 1..255: 0 becomes 1, and any
    [uint8_t] value 1..255 is kept. *)
Theorem setRefreshInterval_range (ms : Z) (s : SevenSegment) :
  let r := _refreshIntervalMs (setRefreshInterval ms s) in
  1 <= r <= 255 /\ (1 <= ms <= 255 -> r = ms) /\ (ms = 0 -> r = 1).
Proof.
  cbn. destruct (Z.ltb_spec ms 1) as [H1|H1].
  - cbn. lia.
  - destruct (Z.ltb_spec 255 ms); lia.
Qed.

Lemma setRefreshInterval_range_witness :
  _refreshIntervalMs (setRefreshInterval 0 display_ex) = 1
  /\ _refreshIntervalMs (setRefreshInterval 7 display_ex) = 7.
Proof.
  split; [apply (proj2 (proj2 (setRefreshInterval_range 0 display_ex))); reflexivity|].
  apply (proj1 (proj2 (setRefreshInterval_range 7 display_ex))). lia.
Defined.

(** [testWiring] on a running display leaves the state unchanged; its
    trace masks the interrupts and the Timer1 interrupt first, enables
    them again last, and holds one delay per segment. *)
Theorem testWiring_active_trace (delayMs : Z) (s : SevenSegment) :
  _isrActive s = true ->
  fst (testWiring delayMs s) = s
  /\ (exists mid, snd (testWiring delayMs s) = [Cli; TimskDisable] ++ mid ++ [TimskEnable; Sei])
  /\ filter is_delay (snd (testWiring delayMs s)) = repeat (Delay delayMs) 8.
Proof.
  intros H. unfold testWiring. rewrite H. cbn [negb fst snd].
  split; [reflexivity|split].
  - exists (map (fun d => DigitalWrite (pin_read (_digitPins s) d) HIGH) (indices NUM_DIGITS)
        ++ flat_map (fun sg => [DigitalWrite (pin_read (_segmentPins s) sg) HIGH; Sei;
                                Delay delayMs; Cli; DigitalWrite (pin_read (_segmentPins s) sg) LOW])
                    (indices NUM_SEGMENTS)
        ++ map (fun d => DigitalWrite (pin_read (_digitPins s) d) LOW) (indices NUM_DIGITS)).
    rewrite <- !app_assoc. reflexivity.
  - cbn -[pin_read]. reflexivity.
Qed.

Lemma testWiring_active_trace_witness :
  _isrActive display_ex = true
  /\ filter is_delay (snd (testWiring 1000 display_ex)) = repeat (Delay 1000) 8.
Proof.
  split; [reflexivity|]. apply (testWiring_active_trace 1000 display_ex). reflexivity.
Defined.

(** [setNumber] and [setHundredths] show any value above 9999 as 9999. *)
Theorem setNumber_clamps_9999 (value dp : Z) (s : SevenSegment) :
  9999 < value ->
  setNumber value dp s = setNumber 9999 dp s /\ setHundredths value dp s = setHundredths 9999 dp s.
Proof.
  intros H. split.
  - rewrite setNumber_clamp. unfold MAX_VALUE. destruct (Z.ltb_spec 9999 value); [reflexivity|lia].
  - unfold setHundredths. destruct (Z.ltb_spec 9999 value); [reflexivity|lia].
Qed.

Lemma setNumber_clamps_9999_witness :
  9999 < 12345 /\ setNumber 12345 1 display_ex = setNumber 9999 1 display_ex.
Proof. split; [lia|]. apply (setNumber_clamps_9999 12345 1 display_ex). lia. Defined.




Lemma strlen_le (t : list ascii) : (strlen t <= List.length t)%nat.
Proof.
  induction t as [|c t IH]; simpl; [lia|]. destruct (Ascii.eqb c zero); simpl; lia.
Qed.

(** [strncpy] into a buffer of at least [n] characters copies the first
    [strlen src] characters (at most [n]) and NUL-pads up to [n]. *)
Lemma strncpy_spec (dst src : list ascii) (n : nat) :
  (n <= List.length dst)%nat ->
  strncpy dst src n
  = firstn (Nat.min n (strlen src)) src ++ repeat zero (n - Nat.min n (strlen src))
    ++ skipn n dst.
Proof.
  revert dst src. induction n as [|n IH]; intros dst src Hn.
  - simpl. destruct dst; reflexivity.
  - destruct dst as [|x dst]; [simpl in Hn; lia|]. simpl in Hn.
    destruct src as [|c src].
    + simpl. rewrite IH by lia. simpl. rewrite ?Nat.min_0_r, ?Nat.sub_0_r. reflexivity.
    + simpl. destruct (Ascii.eqb c zero) eqn:E.
      * rewrite IH by lia. simpl. rewrite ?Nat.min_0_r, ?Nat.sub_0_r. reflexivity.
      * simpl. rewrite IH by lia. reflexivity.
Qed.

Lemma map_nth_seq {A B : Type} (f : A -> B) (l : list A) (d : A) (n : nat) :
  (n <= List.length l)%nat -> map (fun i => f (nth i l d)) (seq 0 n) = map f (firstn n l).
Proof.
  revert n. induction l as [|x l IH]; intros n Hn.
  - simpl in Hn. assert (n = O) by lia. subst. reflexivity.
  - destruct n as [|n]; [reflexivity|]. simpl in Hn.
    simpl. f_equal. rewrite <- seq_shift, map_map. apply IH. lia.
Qed.

Lemma setText_short (t : list ascii) (s : SevenSegment) :
  (strlen t <= 4)%nat ->
  setText (Some t) s
  = (set_displayPatterns s (map getPattern (firstn (strlen t) t ++ repeat " "%char (4 - strlen t))),
     OK).
Proof.
  intros H. unfold setText, setText_prog. cbn [fst snd].
  rewrite Z.mod_small by lia.
  destruct (Z.ltb_spec NUM_DIGITS (Z.of_nat (strlen t))) as [Hl|_]; [unfold NUM_DIGITS in Hl; lia|].
  rewrite Nat2Z.id. cbn [run fold_left]. f_equal. f_equal.
  rewrite strncpy_spec by (simpl; lia).
  rewrite Nat.min_id, Nat.sub_diag. cbn [repeat app].
  rewrite map_nth_seq.
  - f_equal. assert (Hlen : List.length (firstn (strlen t) t) = strlen t)
      by (apply firstn_length_le, strlen_le).
    rewrite firstn_app, Hlen, (firstn_all2 (firstn (strlen t) t)) by lia. f_equal.
    assert (E : (strlen t = 0 \/ strlen t = 1 \/ strlen t = 2 \/ strlen t = 3 \/ strlen t = 4)%nat)
      by lia.
    destruct E as [E|[E|[E|[E|E]]]]; rewrite E; reflexivity.
  - rewrite length_app, firstn_length_le by apply strlen_le.
    assert (E : (strlen t = 0 \/ strlen t = 1 \/ strlen t = 2 \/ strlen t = 3 \/ strlen t = 4)%nat)
      by lia.
    destruct E as [E|[E|[E|[E|E]]]]; rewrite E; simpl; lia.
Qed.

(** [setText] of a text of at most four characters (up to its NUL) shows
    its characters' glyphs from the left, pads with blanks on the right,
    and returns [OK]; nothing but the four slots changes. *)
Theorem setText_pads_right (t : list ascii) (s : SevenSegment) :
  (strlen t <= 4)%nat ->
  setText (Some t) s
  = (set_displayPatterns s (map getPattern (firstn (strlen t) t ++ repeat " "%char (4 - strlen t))),
     OK).
Proof. apply setText_short. Qed.

Lemma setText_pads_right_witness :
  (strlen (list_ascii_of_string "Hi") <= 4)%nat
  /\ setText (str "Hi") display_ex
     = (set_displayPatterns display_ex (map getPattern ["H"; "i"; " "; " "]%char), OK).
Proof.
  split; [simpl; lia|]. apply (setText_pads_right (list_ascii_of_string "Hi") display_ex).
  simpl; lia.
Defined.

Lemma digit_char_facts (d : Z) :
  0 <= d < 10 -> Ascii.eqb (digit_char d) zero = false /\ getPattern (digit_char d) = pattern_at d.
Proof.
  intros H.
  assert (E : d = 0 \/ d = 1 \/ d = 2 \/ d = 3 \/ d = 4 \/ d = 5 \/ d = 6 \/ d = 7 \/ d = 8 \/ d = 9)
    by lia.
  repeat destruct E as [E|E]; subst d; split; reflexivity.
Qed.

(** The text round trip: [setText] of the zero-padded four-digit decimal
    text of a value 0..9999 shows exactly what [setNumber value] shows
    with leading zeros on and no decimal point. *)
Theorem setText_decimal_is_setNumber (value : Z) (s : SevenSegment) :
  0 <= value <= 9999 -> _leadingZeros s = true ->
  setText (Some (decimal4 value)) s = (setNumber value (-1) s, OK).
Proof.
  intros Hv Hlz.
  assert (Hd : forall i, 0 <= digit_at value i < 10)
    by (intros i; unfold digit_at; apply Z.mod_pos_bound; lia).
  assert (Hlen : strlen (decimal4 value) = 4%nat).
  { unfold decimal4. cbn [seq map strlen].
    rewrite (proj1 (digit_char_facts _ (Hd 0%nat))), (proj1 (digit_char_facts _ (Hd 1%nat))),
      (proj1 (digit_char_facts _ (Hd 2%nat))), (proj1 (digit_char_facts _ (Hd 3%nat))).
    reflexivity. }
  assert (Hl4 : List.length (decimal4 value) = 4%nat)
    by (unfold decimal4; rewrite length_map, length_seq; reflexivity).
  rewrite setText_short by lia. rewrite Hlen. f_equal.
  rewrite (firstn_all2 (decimal4 value)) by lia. cbn [Nat.sub repeat]. rewrite app_nil_r.
  assert (Eset : setNumber value (-1) s
                 = set_displayPatterns s (_displayPatterns (setNumber value (-1) s)))
    by reflexivity.
  rewrite Eset. f_equal.
  set (d := _displayPatterns (setNumber value (-1) s)).
  assert (Hs : forall i, (i < 4)%nat -> nth i d 0 = pattern_at (digit_at value i)).
  { intros i Hi. destruct (setNumber_slot_facts s value (-1) i Hv ltac:(lia) Hi) as [_ [E _]].
    fold d in E. rewrite E. unfold leading_blank. rewrite Hlz. cbn [negb andb].
    replace (Z.of_nat i =? -1) with false by (symmetry; apply Z.eqb_neq; lia).
    apply Z.lor_0_r. }
  assert (Hl : List.length d = 4%nat)
    by exact (proj1 (setNumber_slot_facts s value (-1) 0 Hv ltac:(lia) ltac:(lia))).
  apply nth_ext with (d := 0) (d' := 0).
  - rewrite length_map, Hl4, Hl. reflexivity.
  - intros n Hn. rewrite length_map, Hl4 in Hn.
    rewrite Hs by exact Hn.
    rewrite (nth_indep _ 0 (getPattern zero)) by (rewrite length_map; lia).
    rewrite map_nth. unfold decimal4.
    rewrite (nth_indep _ zero (digit_char (digit_at value 0)))
      by (rewrite length_map, length_seq; lia).
    rewrite map_nth with (d := O). rewrite seq_nth by lia. rewrite Nat.add_0_l.
    apply digit_char_facts, Hd.
Qed.

Lemma setText_decimal_is_setNumber_witness :
  (0 <= 42 <= 9999 /\ _leadingZeros display_ex = true)
  /\ setText (Some (decimal4 42)) display_ex = (setNumber 42 (-1) display_ex, OK).
Proof.
  assert (H : 0 <= 42 <= 9999) by lia.
  split; [split; [exact H|reflexivity]|].
  apply (setText_decimal_is_setNumber 42 display_ex H). reflexivity.
Defined.

(** [begin()] that fails (a null pin array or a pin above 53) touches no
    pin and no timer register, and changes nothing but the stored error,
    which is the error it returns. *)
Theorem begin_failure_no_effect (s : SevenSegment) :
  snd (begin s) <> OK ->
  fst (fst (begin s)) = set_lastError (snd (begin s)) s /\ snd (fst (begin s)) = [].
Proof.
  intros H. revert H. unfold begin.
  destruct (_segmentPins s), (_digitPins s); cbn [fst snd]; try (intros; split; reflexivity).
  destruct (existsb _ _); cbn [fst snd]; [intros; split; reflexivity|].
  destruct (existsb _ _); cbn [fst snd]; [intros; split; reflexivity|].
  intros H. contradiction.
Qed.

Lemma begin_failure_no_effect_witness :
  snd (begin (construct (Some [2; 3; 4; 5; 6; 7; 8; 60]) (Some digitPins_ex))) <> OK
  /\ snd (fst (begin (construct (Some [2; 3; 4; 5; 6; 7; 8; 60]) (Some digitPins_ex)))) = [].
Proof.
  assert (H : snd (begin (construct (Some [2; 3; 4; 5; 6; 7; 8; 60]) (Some digitPins_ex))) <> OK)
    by discriminate.
  split; [exact H|]. exact (proj2 (begin_failure_no_effect _ H)).
Defined.

Lemma existsb_indices_false (f : Z -> bool) (n : Z) :
  existsb f (indices n) = false <-> (forall i, 0 <= i < n -> f i = false).
Proof.
  split.
  - intros H i Hi. destruct (f i) eqn:E; [|reflexivity].
    assert (existsb f (indices n) = true) by (apply existsb_exists; exists i; split; [apply in_indices, Hi|exact E]).
    congruence.
  - intros H. destruct (existsb f (indices n)) eqn:E; [|reflexivity].
    apply existsb_exists in E as [i [Hi E]].
    unfold indices in Hi. apply in_map_iff in Hi as [k [Hk Hin]]. apply in_seq in Hin.
    rewrite H in E; [discriminate|]. lia.
Qed.

Lemma pins_valid_iff (pins : option (list Z)) (n : Z) :
  existsb (fun i => negb (isPinValid (pin_read pins i))) (indices n) = false
  <-> (forall i, 0 <= i < n -> pin_read pins i <= 53).
Proof.
  rewrite existsb_indices_false. unfold isPinValid, MAX_PIN.
  split; intros H i Hi; specialize (H i Hi).
  - apply negb_false_iff, Z.leb_le in H. exact H.
  - apply negb_false_iff, Z.leb_le, H.
Qed.

(** [begin()] succeeds exactly when both pin arrays are non-null and each
    of the eight segment pins and four digit pins is at most 53. *)
Theorem begin_ok_iff (s : SevenSegment) :
  snd (begin s) = OK
  <-> (exists sp dp, _segmentPins s = Some sp /\ _digitPins s = Some dp
        /\ (forall i, 0 <= i < 8 -> pin_read (Some sp) i <= 53)
        /\ (forall i, 0 <= i < 4 -> pin_read (Some dp) i <= 53)).
Proof.
  unfold begin. destruct (_segmentPins s) as [sp|], (_digitPins s) as [dp|]; cbn [fst snd];
    try (split; [discriminate|intros (sp' & dp' & E1 & E2 & _); discriminate]).
  destruct (existsb _ (indices NUM_SEGMENTS)) eqn:E1.
  - cbn [fst snd]. split; [discriminate|]. intros (sp' & dp' & F1 & F2 & H1 & H2).
    injection F1 as <-. assert (existsb (fun i => negb (isPinValid (pin_read (Some sp) i)))
                                  (indices NUM_SEGMENTS) = false) by (apply pins_valid_iff, H1).
    congruence.
  - destruct (existsb _ (indices NUM_DIGITS)) eqn:E2.
    + cbn [fst snd]. split; [discriminate|]. intros (sp' & dp' & F1 & F2 & H1 & H2).
      injection F2 as <-. assert (existsb (fun i => negb (isPinValid (pin_read (Some dp) i)))
                                    (indices NUM_DIGITS) = false) by (apply pins_valid_iff, H2).
      congruence.
    + cbn [fst snd]. split; [intros _|reflexivity].
      exists sp, dp. split; [reflexivity|split; [reflexivity|]].
      split; [apply (pins_valid_iff _ 8), E1 | apply (pins_valid_iff _ 4), E2].
Qed.

(** A successful [begin()] starts the display: the interrupt flag is set,
    the stored error is [OK], and every segment and digit pin is made an
    output and driven LOW before the timer is programmed and its interrupt
    enabled, which is the last thing the trace does. *)
Theorem begin_ok_trace (s : SevenSegment) :
  snd (begin s) = OK ->
  let s' := fst (fst (begin s)) in
  let tr := snd (fst (begin s)) in
  _isrActive s' = true /\ _lastError s' = OK
  /\ exists pre, tr = pre ++ [Cli; Timer1Setup; TimskEnable; Sei]
     /\ (forall i, 0 <= i < 8 ->
         In (PinModeOutput (pin_read (_segmentPins s) i)) pre
         /\ In (DigitalWrite (pin_read (_segmentPins s) i) LOW) pre)
     /\ (forall i, 0 <= i < 4 ->
         In (PinModeOutput (pin_read (_digitPins s) i)) pre
         /\ In (DigitalWrite (pin_read (_digitPins s) i) LOW) pre).
Proof.
  intros H. revert H. unfold begin.
  destruct (_segmentPins s) as [sp|], (_digitPins s) as [dp|]; cbn [fst snd];
    try discriminate.
  destruct (existsb _ (indices NUM_SEGMENTS)); cbn [fst snd]; [discriminate|].
  destruct (existsb _ (indices NUM_DIGITS)); cbn [fst snd]; [discriminate|].
  intros _. split; [reflexivity|split; [reflexivity|]].
  eexists. split; [rewrite app_assoc; reflexivity|].
  split; intros i Hi; split; apply in_or_app;
    [left| left| right| right]; apply in_flat_map; exists i;
    (split; [apply in_indices; exact Hi|simpl; auto]).
Qed.

Lemma begin_ok_trace_witness :
  snd (begin (construct (Some segmentPins_ex) (Some digitPins_ex))) = OK
  /\ _isrActive display_ex = true.
Proof.
  assert (H : snd (begin (construct (Some segmentPins_ex) (Some digitPins_ex))) = OK)
    by reflexivity.
  split; [exact H|]. exact (proj1 (begin_ok_trace _ H)).
Defined.

Lemma levels_value_bits :
  forallb (fun p => levels_value
             (map (fun bit => if Z.land p (Z.shiftl 1 (7 - bit)) =? 0 then LOW else HIGH)
                  (indices NUM_SEGMENTS)) =? p) (indices 256) = true.
Proof. vm_compute. reflexivity. Qed.

(** A multiplex tick outside the blink "off" phase switches the previous
    digit off, writes the eight segment pins a..dp in order with levels
    that, read as bits 7..0, give back the byte of the slot it shows, and
    then switches the new digit on. *)
Theorem multiplex_drives_slot (s : SevenSegment) :
  _blinkEnabled s = false \/ _blinkStateOn s = true ->
  let c := (_currentDigit s + 1) mod 4 in
  let p := nth (Z.to_nat c) (_displayPatterns s) 0 in
  0 <= p < 256 ->
  exists ls, List.length ls = 8%nat /\ levels_value ls = p
    /\ snd (multiplex s)
       = DigitalWrite (pin_read (_digitPins s) (_currentDigit s)) LOW
         :: map (fun bl => DigitalWrite (pin_read (_segmentPins s) (fst bl)) (snd bl))
                (combine (indices 8) ls)
         ++ [DigitalWrite (pin_read (_digitPins s) c) HIGH].
Proof.
  intros Hb c p Hp.
  exists (map (fun bit => if Z.land p (Z.shiftl 1 (7 - bit)) =? 0 then LOW else HIGH)
              (indices NUM_SEGMENTS)).
  split; [reflexivity|split].
  - apply Z.eqb_eq. exact (forallb_indices _ 256 p levels_value_bits Hp).
  - unfold multiplex. cbn [_blinkEnabled _blinkStateOn set_currentDigit _currentDigit
                           _displayPatterns _segmentPins _digitPins snd].
    replace (_blinkEnabled s && negb (_blinkStateOn s)) with false
      by (destruct Hb as [Hb|Hb]; rewrite Hb; [reflexivity|symmetry; apply andb_false_r]).
    reflexivity.
Qed.

Lemma multiplex_drives_slot_witness :
  let s := setSegments (Some [119; 171; 0; 255]) display_ex in
  (_blinkEnabled s = false \/ _blinkStateOn s = true)
  /\ 0 <= nth (Z.to_nat ((_currentDigit s + 1) mod 4)) (_displayPatterns s) 0 < 256
  /\ exists ls, List.length ls = 8%nat /\ levels_value ls = 171
     /\ snd (multiplex s)
        = DigitalWrite 10 LOW
          :: map (fun bl => DigitalWrite (pin_read (Some segmentPins_ex) (fst bl)) (snd bl))
                 (combine (indices 8) ls)
          ++ [DigitalWrite 11 HIGH].
Proof.
  intros s.
  assert (Hb : _blinkEnabled s = false \/ _blinkStateOn s = true) by (left; reflexivity).
  assert (Hp : 0 <= nth (Z.to_nat ((_currentDigit s + 1) mod 4)) (_displayPatterns s) 0 < 256)
    by (replace (nth (Z.to_nat ((_currentDigit s + 1) mod 4)) (_displayPatterns s) 0) with 171
          by reflexivity; lia).
  split; [exact Hb|split; [exact Hp|]].
  exact (multiplex_drives_slot s Hb Hp).
Defined.

Lemma refresh_all_stopped (times : list Z) (s : SevenSegment) :
  refresh_all times (stopBlink s) = stopBlink s.
Proof.
  induction times as [|t times IH]; [reflexivity|].
  unfold refresh_all in *. cbn [fold_left]. exact IH.
Qed.

(** After [stopBlink()], no call of [refresh()] changes the state, at any
    time, and every multiplex tick shows its digit (it never takes the
    dark branch of the blink "off" phase). *)
Theorem stopBlink_steady (times : list Z) (s : SevenSegment) :
  let s' := refresh_all times (stopBlink s) in
  s' = stopBlink s
  /\ _blinkEnabled s' = false /\ _blinkStateOn s' = true
  /\ exists segs, snd (multiplex s')
       = DigitalWrite (pin_read (_digitPins s) (_currentDigit s)) LOW
         :: segs ++ [DigitalWrite (pin_read (_digitPins s) ((_currentDigit s + 1) mod 4)) HIGH].
Proof.
  intros s'. unfold s'. rewrite refresh_all_stopped.
  split; [reflexivity|split; [reflexivity|split; [reflexivity|]]].
  eexists. reflexivity.
Qed.

(** Blinking across the 32-bit [millis()] wraparound: after
    [startBlink(iv)] at time [t0], a [refresh()] at the reading [d]
    milliseconds later (taken modulo 2^32) switches the blink phase off,
    with the toggle time set to that reading, exactly when [d] >= [iv],
    and changes nothing otherwise. *)
Theorem startBlink_refresh_wrap (iv t0 d : Z) (s : SevenSegment) :
  0 <= t0 < 2 ^ 32 -> 0 <= d < 2 ^ 32 ->
  let s1 := startBlink iv t0 s in
  let now := (t0 + d) mod 2 ^ 32 in
  refresh now s1 = if iv <=? d then set_blink s1 true false iv now else s1.
Proof.
  intros Ht Hd s1 now.
  assert (E : (now - t0) mod ULONG_MOD = d).
  { unfold now, ULONG_MOD. rewrite Zminus_mod_idemp_l.
    replace (t0 + d - t0) with d by lia. apply Z.mod_small. exact Hd. }
  unfold refresh. cbn [s1 startBlink set_blink _blinkEnabled _blinkInterval _blinkLastToggle
                      _blinkStateOn negb].
  fold now. rewrite E. reflexivity.
Qed.

Lemma startBlink_refresh_wrap_witness :
  (0 <= 2 ^ 32 - 100 < 2 ^ 32 /\ 0 <= 300 < 2 ^ 32)
  /\ _blinkStateOn (refresh 200 (startBlink 250 (2 ^ 32 - 100) display_ex)) = false.
Proof.
  assert (H1 : 0 <= 2 ^ 32 - 100 < 2 ^ 32) by lia.
  assert (H2 : 0 <= 300 < 2 ^ 32) by lia.
  split; [split; assumption|].
  pose proof (startBlink_refresh_wrap 250 (2 ^ 32 - 100) 300 display_ex H1 H2) as E.
  cbv zeta in E. replace 200 with ((2 ^ 32 - 100 + 300) mod 2 ^ 32) by reflexivity.
  rewrite E. reflexivity.
Defined.

(** The demo of the example sketch 03: [step] stays in 0..7, and each time
    the two-second period has elapsed it advances by one modulo 8 (step 7
    sets it to 255, which the increment wraps to 0). *)
Theorem demo_step_cycle (now : Z) (d : Demo) :
  0 <= demo_step d <= 7 ->
  let fires := DEMO_STEP_INTERVAL <=? (now - demoStepTime d) mod ULONG_MOD in
  demo_step (runDemoMode now d) = (if fires then (demo_step d + 1) mod 8 else demo_step d)
  /\ 0 <= demo_step (runDemoMode now d) <= 7.
Proof.
  intros H fires. destruct d as [t stp disp]. cbn [demo_step demoStepTime] in *.
  unfold runDemoMode. cbn [demo_step demoStepTime demo_display]. fold fires.
  destruct fires; [|split; [reflexivity|exact H]].
  assert (E : stp = 0 \/ stp = 1 \/ stp = 2 \/ stp = 3 \/ stp = 4 \/ stp = 5 \/ stp = 6 \/ stp = 7)
    by lia.
  repeat destruct E as [E|E]; subst stp; (split; [reflexivity|cbn; lia]).
Qed.

Lemma demo_step_cycle_witness :
  0 <= demo_step (mkDemo 0 7 display_ex) <= 7
  /\ demo_step (runDemoMode 5000 (mkDemo 0 7 display_ex)) = 0.
Proof.
  assert (H : 0 <= demo_step (mkDemo 0 7 display_ex) <= 7) by (cbn; lia).
  split; [exact H|]. exact (proj1 (demo_step_cycle 5000 _ H)).
Defined.

(** The text mode of the example sketch 03: [textIndex] stays in 0..3 and
    advances modulo 4 every three seconds; each of its four texts is shown
    in full ([setText] never takes its error path) and the stored error is
    untouched. *)
Theorem textMode_cycle (now : Z) (t : TextMode) :
  0 <= textIndex t <= 3 ->
  let t' := runTextMode now t in
  0 <= textIndex t' <= 3
  /\ ((3000 <=? (now - textSwitchTime t) mod ULONG_MOD) = true ->
      textIndex t' = (textIndex t + 1) mod 4
      /\ _displayPatterns (text_display t')
         = map getPattern (list_ascii_of_string (nth (Z.to_nat (textIndex t)) texts EmptyString))
      /\ _lastError (text_display t') = _lastError (text_display t))
  /\ ((3000 <=? (now - textSwitchTime t) mod ULONG_MOD) = false -> t' = t).
Proof.
  intros H t'. unfold t', runTextMode.
  destruct (3000 <=? (now - textSwitchTime t) mod ULONG_MOD) eqn:F.
  - cbn [textIndex text_display].
    split; [pose proof (Z.mod_pos_bound (textIndex t + 1) 4 ltac:(lia)); lia|split; [|discriminate]].
    intros _. split; [reflexivity|].
    assert (E : textIndex t = 0 \/ textIndex t = 1 \/ textIndex t = 2 \/ textIndex t = 3) by lia.
    repeat destruct E as [E|E]; rewrite E; split; reflexivity.
  - split; [exact H|split; [discriminate|reflexivity]].
Qed.

Lemma textMode_cycle_witness :
  0 <= textIndex (mkTextMode 0 3 display_ex) <= 3
  /\ textIndex (runTextMode 3000 (mkTextMode 0 3 display_ex)) = 0.
Proof.
  assert (H : 0 <= textIndex (mkTextMode 0 3 display_ex) <= 3) by (cbn; lia).
  split; [exact H|]. exact (proj1 (proj1 (proj2 (textMode_cycle 3000 _ H)) eq_refl)).
Defined.

(** The fixed-point mode of the example sketch 03: [hundredths] stays a
    multiple of 10 in 0..9999 (the [uint16_t] addition never wraps); each
    update adds 10, going from 9990 back to 0, and shows the value with
    two decimals. *)
Theorem fixedPoint_cycle (now : Z) (f : FixedPoint) :
  0 <= hundredths f <= 9999 -> hundredths f mod 10 = 0 ->
  let f' := runFixedPointMode now f in
  0 <= hundredths f' <= 9999 /\ hundredths f' mod 10 = 0
  /\ ((50 <=? (now - fpUpdateTime f) mod ULONG_MOD) = true ->
      hundredths f' = (if hundredths f =? 9990 then 0 else hundredths f + 10)
      /\ fp_display f' = setNumber (hundredths f') 2 (fp_display f)).
Proof.
  intros H Hm f'. unfold f', runFixedPointMode.
  apply Z.mod_divide in Hm as [q Hq]; [|discriminate].
  destruct (50 <=? (now - fpUpdateTime f) mod ULONG_MOD) eqn:F.
  - cbn [hundredths fp_display].
    rewrite (Z.mod_small (hundredths f + 10)) by lia.
    assert (Hh : (if 9999 <? hundredths f + 10 then 0 else hundredths f + 10)
                 = (if hundredths f =? 9990 then 0 else hundredths f + 10)).
    { destruct (Z.ltb_spec 9999 (hundredths f + 10)), (Z.eqb_spec (hundredths f) 9990); lia. }
    rewrite Hh.
    assert (Hr : 0 <= (if hundredths f =? 9990 then 0 else hundredths f + 10) <= 9999
                 /\ (if hundredths f =? 9990 then 0 else hundredths f + 10) mod 10 = 0).
    { destruct (Z.eqb_spec (hundredths f) 9990); [split; [lia|reflexivity]|].
      split; [lia|]. rewrite Hq. replace (q * 10 + 10) with ((q + 1) * 10) by ring.
      apply Z.mod_mul. discriminate. }
    split; [exact (proj1 Hr)|split; [exact (proj2 Hr)|]].
    intros _. split; [reflexivity|].
    unfold setHundredths. destruct (Z.ltb_spec 9999 (if hundredths f =? 9990 then 0 else hundredths f + 10));
      [lia|]. reflexivity.
  - split; [exact H|split; [rewrite Hq; apply Z.mod_mul; discriminate|discriminate]].
Qed.

Lemma fixedPoint_cycle_witness :
  (0 <= hundredths (mkFixedPoint 0 9990 display_ex) <= 9999
   /\ hundredths (mkFixedPoint 0 9990 display_ex) mod 10 = 0)
  /\ hundredths (runFixedPointMode 100 (mkFixedPoint 0 9990 display_ex)) = 0.
Proof.
  assert (H1 : 0 <= hundredths (mkFixedPoint 0 9990 display_ex) <= 9999) by (cbn; lia).
  assert (H2 : hundredths (mkFixedPoint 0 9990 display_ex) mod 10 = 0) by reflexivity.
  split; [split; assumption|].
  exact (proj1 (proj2 (proj2 (fixedPoint_cycle 100 _ H1 H2)) eq_refl)).
Defined.
